(** * subctl: the agent snapshot reader, the liveness filter and the event recorder

    A shallow embedding of [src/subctl/models.py], [src/subctl/orchestrator.py],
    [src/subctl/cli.py] (the table, the listings, [agents inspect] and [main])
    and the single-file variant [src/subctl.py].

    Python objects are values of [pyval]; a failing call is a [Raise]; the
    Redis server, the console and the wall clock form the [world] that the
    methods thread through.  Library functions whose text is not part of the
    repository ([json.loads], [datetime.fromisoformat], string formatting) are
    fields of the class [Runtime]: every general theorem holds for all of
    them.  [Sample] is one runtime, written after the Python library, and
    [Demo] holds the snapshots and worlds on which the code is run with it.
    What the terminal shows for a table is a field of the class [Terminal],
    with [Plain] as one instance and [Scenes] as further worlds. *)

From Stdlib Require Import ZArith QArith List String Ascii Bool Lia Floats Uint63.
From stdpp Require Import gmap strings pretty.
Import ListNotations.

#[local] Open Scope string_scope.
#[local] Open Scope list_scope.
#[local] Open Scope Z_scope.
#[local] Set Warnings "-inexact-float,-register-all".

(** ** Exceptions and results *)

(** The exception classes the code can meet.  All of them derive from
    [Exception], so [except Exception] (orchestrator.py) and the bare
    [except:] (subctl.py) catch the same ones; interrupts are not modelled. *)
Inductive exc_class : Type :=
| ConnectionError   (* redis.exceptions.ConnectionError: store unreachable *)
| TimeoutError      (* redis.exceptions.TimeoutError *)
| ResponseError     (* redis.exceptions.ResponseError: WRONGTYPE and the like *)
| JSONDecodeError   (* json.loads on text that is not JSON *)
| ValueError        (* datetime.fromisoformat on a malformed string, bad format code *)
| TypeError
| AttributeError
| NameError.

Inductive result (A : Type) : Type :=
| Ok (a : A)
| Raise (e : exc_class).
Arguments Ok {A} a.
Arguments Raise {A} e.

Definition rbind {A B} (r : result A) (k : A -> result B) : result B :=
  match r with
  | Ok a => k a
  | Raise e => Raise e
  end.

Declare Scope res_scope.
Delimit Scope res_scope with res.
Notation "x <- c ;; k" := (rbind c (fun x => k))
  (at level 100, c at next level, right associativity) : res_scope.

(** ** datetime, as in the standard library *)

(** [tzinfo] is [None] for a naive datetime and the fixed UTC offset, in
    microseconds, for an aware one. *)
Record datetime : Type := mk_datetime {
  year : Z; month : Z; day : Z;
  hour : Z; minute : Z; second : Z; microsecond : Z;
  tzinfo : option Z
}.

Definition is_leap (y : Z) : bool :=
  (y mod 4 =? 0) && (negb (y mod 100 =? 0) || (y mod 400 =? 0)).

Definition days_before_year (y : Z) : Z :=
  let p := y - 1 in p * 365 + p / 4 - p / 100 + p / 400.

Definition DAYS_IN_MONTH : list Z :=
  [-1; 31; 28; 31; 30; 31; 30; 31; 31; 30; 31; 30; 31].

Definition DAYS_BEFORE_MONTH : list Z :=
  [-1; 0; 31; 59; 90; 120; 151; 181; 212; 243; 273; 304; 334].

Definition days_in_month (y m : Z) : Z :=
  if (m =? 2) && is_leap y then 29 else nth (Z.to_nat m) DAYS_IN_MONTH 0.

Definition days_before_month (y m : Z) : Z :=
  nth (Z.to_nat m) DAYS_BEFORE_MONTH 0 + (if (2 <? m) && is_leap y then 1 else 0).

Definition toordinal (d : datetime) : Z :=
  days_before_year (year d) + days_before_month (year d) (month d) + day d.

(** The range checks of the [datetime] constructor. *)
Definition datetime_valid (d : datetime) : bool :=
  (1 <=? year d) && (year d <=? 9999) && (1 <=? month d) && (month d <=? 12)
  && (1 <=? day d) && (day d <=? days_in_month (year d) (month d))
  && (0 <=? hour d) && (hour d <? 24) && (0 <=? minute d) && (minute d <? 60)
  && (0 <=? second d) && (second d <? 60)
  && (0 <=? microsecond d) && (microsecond d <? 1000000).

Fixpoint lex_ltb (xs ys : list Z) : bool :=
  match xs, ys with
  | x :: xs', y :: ys' => (x <? y) || ((x =? y) && lex_ltb xs' ys')
  | _, _ => false
  end.

(** [a < b] between naive datetimes: the fields compare, most significant
    first. *)
Definition datetime_ltb (a b : datetime) : bool :=
  lex_ltb [year a; month a; day a; hour a; minute a; second a; microsecond a]
          [year b; month b; day b; hour b; minute b; second b; microsecond b].

(** A [timedelta] is its total number of microseconds. *)
Definition timedelta : Type := Z.

Definition timedelta_minutes (n : Z) : timedelta := n * 60 * 1000000.

(** The microseconds from [b] to [a], read off the fields of the two. *)
Definition elapsed (a b : datetime) : timedelta :=
  let secs d := second d + minute d * 60 + hour d * 3600 in
  ((toordinal a - toordinal b) * 86400 + (secs a - secs b)) * 1000000
  + (microsecond a - microsecond b).

(** [a - b] for two datetimes ([datetime.__sub__]): between naive datetimes
    the elapsed time, between aware ones corrected by the offsets; naive and
    aware do not mix. *)
Definition datetime_sub (a b : datetime) : result timedelta :=
  match tzinfo a, tzinfo b with
  | None, None => Ok (elapsed a b)
  | Some oa, Some ob => Ok (elapsed a b + ob - oa)
  | _, _ => Raise TypeError
  end.

(** [td.total_seconds()] and the division by 60 are binary64 quotients in
    CPython.  They are taken here as exact rationals; the comparison with an
    integer number of minutes then agrees with the binary64 one as long as the
    threshold is below 2^27 minutes (some 255 years). *)
Definition total_seconds (td : timedelta) : Q := inject_Z td / inject_Z 1000000.

(** ** Python values *)

(** What [json.loads] can return, and datetimes, which the decoder puts in
    place of the [last_update] text.  A [VDict] lists the items of a [dict] in
    insertion order. *)
Inductive pyval : Type :=
| VNone
| VBool (b : bool)
| VInt (n : Z)
| VFloat (x : float)
| VStr (s : string)
| VList (xs : list pyval)
| VDict (kvs : list (string * pyval))
| VDatetime (d : datetime).

(** ** dict: an insertion-ordered association list *)

Definition dict (V : Type) : Type := list (string * V).

Fixpoint dict_get {V} (k : string) (d : dict V) : option V :=
  match d with
  | [] => None
  | (k', v) :: rest => if String.eqb k k' then Some v else dict_get k rest
  end.

(** [d[k] = v]: an existing key keeps its place, a new one goes last. *)
Fixpoint dict_set {V} (k : string) (v : V) (d : dict V) : dict V :=
  match d with
  | [] => [(k, v)]
  | (k', v') :: rest =>
      if String.eqb k k' then (k, v) :: rest else (k', v') :: dict_set k v rest
  end.

Definition dict_keys {V} (d : dict V) : list string := map fst d.

Definition dict_contains {V} (k : string) (d : dict V) : bool :=
  match dict_get k d with Some _ => true | None => false end.

(** [m] is a sub-mapping of [d]: every item of [m] is an item of [d]. *)
Definition dict_submap {V} (m d : dict V) : Prop :=
  forall k v, dict_get k m = Some v -> dict_get k d = Some v.

(** ** models.py *)

(** [@dataclass class AgentInfo].  A dataclass does not check the annotated
    types, so every field holds an arbitrary value. *)
Record AgentInfo : Type := mk_AgentInfo {
  session_key : pyval;          (* str *)
  label : pyval;                (* str *)
  channel : pyval;              (* str *)
  total_tokens : pyval;         (* int *)
  status : pyval;               (* str *)
  last_update : pyval;          (* datetime *)
  assigned_tickets : pyval;     (* List[str] *)
  package_compliance : pyval;   (* float *)
  custom_code_ratio : pyval;    (* float *)
  consensus_proof : pyval       (* Optional[str] *)
}.

Definition AgentInfo_fields : list string :=
  ["session_key"; "label"; "channel"; "total_tokens"; "status"; "last_update";
   "assigned_tickets"; "package_compliance"; "custom_code_ratio"; "consensus_proof"].

(** [@dataclass class AgentEvent]. *)
Record AgentEvent : Type := mk_AgentEvent {
  event_session_key : pyval;    (* session_key: str *)
  event_type : pyval;           (* str *)
  timestamp : pyval;            (* datetime *)
  data : pyval;                 (* Dict[str, Any] *)
  cryptographic_hash : pyval    (* str *)
}.

(** A keyword argument of a call: absent means a missing required argument. *)
Definition kwarg (name : string) (kwargs : dict pyval) : result pyval :=
  match dict_get name kwargs with
  | Some v => Ok v
  | None => Raise TypeError
  end.

(** [AgentInfo] called with a dict unpacked into keyword arguments, as in
    [orchestrator.py] line 45: the generated [__init__] has the ten fields as
    required parameters and no other; an unexpected keyword and a missing
    argument are both a [TypeError]. *)
Definition AgentInfo_init (kwargs : dict pyval) : result AgentInfo :=
  if forallb (fun k => existsb (String.eqb k) AgentInfo_fields) (dict_keys kwargs) then
    (a1 <- kwarg "session_key" kwargs ;;
     a2 <- kwarg "label" kwargs ;;
     a3 <- kwarg "channel" kwargs ;;
     a4 <- kwarg "total_tokens" kwargs ;;
     a5 <- kwarg "status" kwargs ;;
     a6 <- kwarg "last_update" kwargs ;;
     a7 <- kwarg "assigned_tickets" kwargs ;;
     a8 <- kwarg "package_compliance" kwargs ;;
     a9 <- kwarg "custom_code_ratio" kwargs ;;
     a10 <- kwarg "consensus_proof" kwargs ;;
     Ok (mk_AgentInfo a1 a2 a3 a4 a5 a6 a7 a8 a9 a10))%res
  else Raise TypeError.

(** [dataclasses.asdict(event)]: the fields by name, in declaration order. *)
Definition asdict (event : AgentEvent) : pyval :=
  VDict [("session_key", event_session_key event);
         ("event_type", event_type event);
         ("timestamp", timestamp event);
         ("data", data event);
         ("cryptographic_hash", cryptographic_hash event)].

(** A value of the mapping [get_all_agents] returns: an [AgentInfo] object, or
    whatever else the blob held under that label. *)
Inductive agent_value : Type :=
| Agent (a : AgentInfo)
| Other (v : pyval).

(** ** The library functions the code calls *)

Class Runtime : Type := {
  (** [json.loads(text)] *)
  json_loads : string -> result pyval;
  (** the text [json.dumps] writes for a value it can serialize *)
  json_text : pyval -> string;
  (** [datetime.fromisoformat(text)] *)
  fromisoformat : string -> result datetime;
  (** [str(e)] for a caught exception *)
  exc_str : exc_class -> string;
  (** [str(v)], as an f-string field without format code prints it *)
  py_str : pyval -> string;
  (** [format(v, spec)], as an f-string field [{v:spec}] prints it *)
  format_spec : string -> pyval -> result string;
  (** [d.strftime(fmt)] *)
  strftime : string -> datetime -> string
}.

(** [json.dumps(v)] with the default encoder: a datetime anywhere in [v] is a
    [TypeError] (Object of type datetime is not JSON serializable). *)
Fixpoint json_serializable (v : pyval) : bool :=
  match v with
  | VDatetime _ => false
  | VList xs => forallb json_serializable xs
  | VDict kvs => forallb (fun kv => let '(_, x) := kv in json_serializable x) kvs
  | _ => true
  end.

Definition json_dumps `{Runtime} (v : pyval) : result string :=
  if json_serializable v then Ok (json_text v) else Raise TypeError.

(** Name lookup in a module: a name that the module neither defines nor
    imports (and that is no builtin) is a [NameError] when it is evaluated. *)
Definition load_global (globals : list string) (name : string) : result unit :=
  if existsb (String.eqb name) globals then Ok tt else Raise NameError.

(** ** The world: the Redis server, the console, the clock *)

Inductive redis_value : Type :=
| RString (text : string)
| RList (items : list string).   (* head first *)

(** A key of the server: its value and its time to live in seconds, if any. *)
Record redis_entry : Type := mk_entry {
  content : redis_value;
  ttl : option Z
}.

(** [faults] plans the outcome of the coming client calls, one element per
    call: [Some e] makes the call fail with [e] (connection refused, timeout),
    [None] lets it through; past the end of the plan every call goes through. *)
Record world : Type := mk_world {
  redis : gmap string redis_entry;
  faults : list (option exc_class);
  console : list string;           (* the lines printed so far *)
  clock : datetime                 (* the local wall-clock time *)
}.

Definition with_redis (r : gmap string redis_entry) (w : world) : world :=
  mk_world r (faults w) (console w) (clock w).
Definition with_faults (f : list (option exc_class)) (w : world) : world :=
  mk_world (redis w) f (console w) (clock w).
Definition with_console (c : list string) (w : world) : world :=
  mk_world (redis w) (faults w) c (clock w).

(** A computation that reads and changes the world and may raise. *)
Definition M (A : Type) : Type := world -> result A * world.

Definition ret {A} (a : A) : M A := fun w => (Ok a, w).

Definition bind {A B} (c : M A) (k : A -> M B) : M B :=
  fun w => match c w with
           | (Ok a, w') => k a w'
           | (Raise e, w') => (Raise e, w')
           end.

Definition lift {A} (r : result A) : M A := fun w => (r, w).

Declare Scope m_scope.
Delimit Scope m_scope with M.
Notation "x <- c ;; k" := (bind c (fun x => k))
  (at level 100, c at next level, right associativity) : m_scope.
Notation "c ;;; k" := (bind c (fun _ => k))
  (at level 100, right associativity) : m_scope.

(** [try: body / except Exception as e: handler e]. *)
Definition try_except {A} (body : M A) (handler : exc_class -> M A) : M A :=
  fun w => match body w with
           | (Ok a, w') => (Ok a, w')
           | (Raise e, w') => handler e w'
           end.

(** [console.print(line)]. *)
Definition console_print (line : string) : M unit :=
  fun w => (Ok tt, with_console (console w ++ [line]) w).

(** [datetime.now()]: the clock, as a naive datetime. *)
Definition local_now (w : world) : datetime :=
  let c := clock w in
  mk_datetime (year c) (month c) (day c) (hour c) (minute c) (second c)
              (microsecond c) None.

Definition datetime_now : M datetime := fun w => (Ok (local_now w), w).

(** One call of the Redis client: it fails as the plan says, or runs [op]. *)
Definition client_call {A} (op : M A) : M A :=
  fun w => match faults w with
           | Some e :: plan => (Raise e, with_faults plan w)
           | None :: plan => op (with_faults plan w)
           | [] => op w
           end.

(** [redis_client.get(key)] with [decode_responses=True]. *)
Definition redis_get (key : string) : M (option string) :=
  client_call (fun w =>
    match redis w !! key with
    | None => (Ok None, w)
    | Some (mk_entry (RString text) _) => (Ok (Some text), w)
    | Some (mk_entry (RList _) _) => (Raise ResponseError, w)
    end).

(** [redis_client.lpush(key, value)]: the new length of the list. *)
Definition redis_lpush (key value : string) : M Z :=
  client_call (fun w =>
    match redis w !! key with
    | None => (Ok 1, with_redis (<[key := mk_entry (RList [value]) None]> (redis w)) w)
    | Some (mk_entry (RList items) t) =>
        (Ok (Z.of_nat (S (length items))),
         with_redis (<[key := mk_entry (RList (value :: items)) t]> (redis w)) w)
    | Some (mk_entry (RString _) _) => (Raise ResponseError, w)
    end).

(** [redis_client.expire(key, seconds)]: whether the key exists. *)
Definition redis_expire (key : string) (seconds : Z) : M bool :=
  client_call (fun w =>
    match redis w !! key with
    | None => (Ok false, w)
    | Some (mk_entry c _) =>
        if 0 <? seconds
        then (Ok true, with_redis (<[key := mk_entry c (Some seconds)]> (redis w)) w)
        else (Ok true, with_redis (delete key (redis w)) w)
    end).

(** ** Helpers for Python's dynamic operations *)

(** [raw_data.items()]: only a dict has the method. *)
Definition py_items (v : pyval) : result (list (string * pyval)) :=
  match v with
  | VDict kvs => Ok kvs
  | _ => Raise AttributeError
  end.

(** Truth value of a string as in [if agent_data:]. *)
Definition str_truthy (s : string) : bool :=
  match s with EmptyString => false | _ => true end.

(** Truth value of an arbitrary value. *)
Definition py_truthy (v : pyval) : bool :=
  match v with
  | VNone => false
  | VBool b => b
  | VInt n => negb (n =? 0)
  | VFloat x => negb (PrimFloat.eqb x 0%float)
  | VStr s => str_truthy s
  | VList xs => match xs with [] => false | _ => true end
  | VDict kvs => match kvs with [] => false | _ => true end
  | VDatetime _ => true
  end.

(** ** src/subctl/orchestrator.py *)

Module Orchestrator.
Section Methods.
Context `{Runtime}.

(** The names bound at module level: the imports of lines 5 to 11, [console]
    and the class.  [asdict] is not among them. *)
Definition module_globals : list string :=
  ["json"; "datetime"; "Dict"; "Optional"; "redis"; "Console";
   "AgentInfo"; "AgentEvent"; "console"; "SubCtlOrchestrator"].

(** Lines 41 to 47: one value of the blob. *)
Definition convert (value : pyval) : result agent_value :=
  match value with
  | VDict fields =>
      (fields' <- match dict_get "last_update" fields with
                  | Some (VStr text) =>
                      d <- fromisoformat text ;;
                      Ok (dict_set "last_update" (VDatetime d) fields)
                  | _ => Ok fields
                  end ;;
       a <- AgentInfo_init fields' ;;
       Ok (Agent a))%res
  | _ => Ok (Other value)
  end.

(** Lines 40 to 47: the loop over [raw_data.items()], filling [result]. *)
Fixpoint decode_items (items : list (string * pyval)) (res : dict agent_value)
  : result (dict agent_value) :=
  match items with
  | [] => Ok res
  | (key, value) :: rest =>
      (v <- convert value ;; decode_items rest (dict_set key v res))%res
  end.

(** Lines 35 to 48, the body of [try]: [Some result] when it returns the
    decoded mapping, [None] when [agent_data] is empty or absent. *)
Definition read_agents : M (option (dict agent_value)) :=
  (agent_data <- redis_get "subctl:agents" ;;
   match agent_data with
   | Some text =>
       if str_truthy text then
         raw_data <- lift (json_loads text) ;;
         items <- lift (py_items raw_data) ;;
         res <- lift (decode_items items []) ;;
         ret (Some res)
       else ret None
   | None => ret None
   end)%M.

Definition read_error (e : exc_class) : string :=
  "[red]Error reading from Redis: " +:+ exc_str e +:+ "[/red]".

Definition get_all_agents : M (dict agent_value) :=
  (r <- try_except read_agents
          (fun e => console_print (read_error e) ;;; ret None) ;;
   match r with
   | Some res => ret res
   | None => ret []          (* Fallback: return empty dict *)
   end)%M.

(** Line 63: [(now - agent.last_update).total_seconds() / 60]. *)
Definition age_minutes (now : datetime) (agent : AgentInfo) : result Q :=
  match last_update agent with
  | VDatetime d => (td <- datetime_sub now d ;; Ok (total_seconds td / inject_Z 60)%Q)%res
  | _ => Raise TypeError
  end.

(** Lines 61 to 65: the loop over [all_agents.items()], filling [active_agents]. *)
Fixpoint active_loop (now : datetime) (max_age_minutes : Z)
    (items : list (string * agent_value)) (active_agents : dict agent_value)
  : result (dict agent_value) :=
  match items with
  | [] => Ok active_agents
  | (lbl, agent) :: rest =>
      match agent with
      | Agent a =>
          (age <- age_minutes now a ;;
           if Qle_bool age (inject_Z max_age_minutes)
           then active_loop now max_age_minutes rest (dict_set lbl agent active_agents)
           else active_loop now max_age_minutes rest active_agents)%res
      | Other _ => active_loop now max_age_minutes rest active_agents
      end
  end.

(** [max_age_minutes] is [None] when the caller leaves the argument out. *)
Definition get_active_agents (max_age_minutes : option Z) : M (dict agent_value) :=
  (all_agents <- get_all_agents ;;
   now <- datetime_now ;;
   lift (active_loop now (default 10 max_age_minutes) all_agents []))%M.

(** [all_agents.get(agent_label)]: [None] for a label that is not a key. *)
Definition get_agent_info (agent_label : string) : M agent_value :=
  (all_agents <- get_all_agents ;;
   match dict_get agent_label all_agents with
   | Some v => ret v
   | None => ret (Other VNone)
   end)%M.

Definition record_error (e : exc_class) : string :=
  "[red]Error recording event: " +:+ exc_str e +:+ "[/red]".

(** Lines 76 to 84.  The arguments of [lpush] are evaluated before the call:
    [event_key], then [json.dumps(asdict(event))], where the name [asdict] is
    looked up first. *)
Definition record_agent_event (agent_label : string) (event : AgentEvent) : M unit :=
  try_except
    (let event_key := "subctl:events:" +:+ agent_label in
     _ <- lift (load_global module_globals "asdict") ;;
     payload <- lift (json_dumps (asdict event)) ;;
     _ <- redis_lpush event_key payload ;;
     _ <- redis_expire event_key 3600 ;;   (* Keep 1 hour *)
     ret tt)%M
    (fun e => console_print (record_error e)).

End Methods.
End Orchestrator.

(** ** Attribute access, truth and comparison on the objects the CLI handles *)

(** [obj.f] for a field [f] of [AgentInfo]: no other value of a snapshot has
    an attribute of that name. *)
Definition attr (f : AgentInfo -> pyval) (obj : agent_value) : result pyval :=
  match obj with
  | Agent a => Ok (f a)
  | Other _ => Raise AttributeError
  end.

(** Truth value as in [if agent_info:]: a dataclass instance is true. *)
Definition truthy (obj : agent_value) : bool :=
  match obj with
  | Agent _ => true
  | Other v => py_truthy v
  end.

(** [n < c] for an int [n] and a float [c]: Python compares the exact values. *)
Definition Z_ltb_float (n : Z) (c : float) : bool :=
  match Prim2SF c with
  | S754_zero _ => n <? 0
  | S754_infinity neg => negb neg
  | S754_nan => false
  | S754_finite neg m e =>
      let sm := if neg then Z.neg m else Z.pos m in
      if 0 <=? e then n <? sm * 2 ^ e else n * 2 ^ (- e) <? sm
  end.

(** [v < c] for a float literal [c]: numbers compare, anything else is a
    [TypeError]. *)
Definition py_lt_float (v : pyval) (c : float) : result bool :=
  match v with
  | VFloat x => Ok (PrimFloat.ltb x c)
  | VInt n => Ok (Z_ltb_float n c)
  | VBool b => Ok (Z_ltb_float (Z.b2z b) c)
  | _ => Raise TypeError
  end.

(** [str(v)] inside an f-string; a string prints as itself. *)
Definition str_of `{Runtime} (v : pyval) : string :=
  match v with
  | VStr s => s
  | _ => py_str v
  end.

Definition newline : string := String (ascii_of_nat 10) EmptyString.

(** ** src/subctl/cli.py *)

Module Cli.
Section Commands.
Context `{Runtime}.

(** [generate_agents_table], lines 38 to 42: the Package Compliance cell of
    the row of [agent]. *)
Definition compliance_text (agent : agent_value) : result string :=
  (pc <- attr package_compliance agent ;;
   text <- format_spec ".1%" pc ;;
   severe <- py_lt_float pc 0.8 ;;
   if severe then Ok ("[red]" +:+ text +:+ "[/red]")
   else
     warning <- py_lt_float pc 0.95 ;;
     if warning then Ok ("[yellow]" +:+ text +:+ "[/yellow]")
     else Ok text)%res.

Definition not_found (agent_label : string) : string :=
  "[red]Agent " +:+ agent_label +:+ " not found[/red]".

(** A section header printed when its flag is set. *)
Definition section_header (flag : bool) (title : string) : M unit :=
  if flag then console_print (newline +:+ "[dim]--- " +:+ title +:+ " ---[/dim]")
  else ret tt.

(** [main], lines 123 to 148: the command [agents inspect LABEL] with its
    four flags. *)
Definition inspect (agent_label : string) (logs tools tokens packages : bool) : M unit :=
  (agent_info <- Orchestrator.get_agent_info agent_label ;;
   if truthy agent_info then
     v <- lift (attr label agent_info) ;;
     console_print ("[bold]Agent: " +:+ str_of v +:+ "[/bold]") ;;;
     v <- lift (attr status agent_info) ;;
     console_print ("Status: " +:+ str_of v) ;;;
     v <- lift (attr total_tokens agent_info) ;;
     text <- lift (format_spec "," v) ;;
     console_print ("Tokens: " +:+ text) ;;;
     v <- lift (attr package_compliance agent_info) ;;
     text <- lift (format_spec ".1%" v) ;;
     console_print ("Package Compliance: " +:+ text) ;;;
     v <- lift (attr last_update agent_info) ;;
     text <- lift (match v with
                   | VDatetime d => Ok (strftime "%Y-%m-%d %H:%M:%S" d)
                   | _ => Raise AttributeError
                   end) ;;
     console_print ("Last Update: " +:+ text) ;;;
     section_header logs "Recent Activity (last 10 minutes)" ;;;
     section_header tools "Recent Tool Calls" ;;;
     section_header tokens "Token Usage" ;;;
     section_header packages "Package Compliance"
   else console_print (not_found agent_label))%M.

End Commands.
End Cli.

(** ** src/subctl.py, the single-file variant *)

Module SubctlPy.

(** The attribute [self.agents] of the orchestrator object. *)
Record SubCtlOrchestrator : Type := mk_orchestrator {
  agents : dict agent_value
}.

(** [__init__], line 54: [self.agents = {}]. *)
Definition init : SubCtlOrchestrator := mk_orchestrator [].

Section Methods.
Context `{Runtime}.

(** The names bound at module level: the imports of lines 7 to 22, [console],
    the classes and the functions. *)
Definition module_globals : list string :=
  ["asyncio"; "json"; "sys"; "time"; "argparse"; "datetime"; "Dict"; "List";
   "Optional"; "Any"; "dataclass"; "asdict"; "Path"; "Console"; "Table"; "Panel";
   "redis"; "psutil"; "cryptography"; "pyjwt"; "console"; "AgentInfo";
   "AgentEvent"; "SubCtlOrchestrator"; "main"; "generate_agents_table"].

(** Lines 67 to 73. *)
Definition convert (value : pyval) : result agent_value :=
  match value with
  | VDict fields =>
      (fields' <- match dict_get "last_update" fields with
                  | Some (VStr text) =>
                      d <- fromisoformat text ;;
                      Ok (dict_set "last_update" (VDatetime d) fields)
                  | _ => Ok fields
                  end ;;
       a <- AgentInfo_init fields' ;;
       Ok (Agent a))%res
  | _ => Ok (Other value)
  end.

(** Lines 66 to 73. *)
Fixpoint decode_items (items : list (string * pyval)) (res : dict agent_value)
  : result (dict agent_value) :=
  match items with
  | [] => Ok res
  | (key, value) :: rest =>
      (v <- convert value ;; decode_items rest (dict_set key v res))%res
  end.

(** Lines 61 to 74, the body of [try]. *)
Definition read_agents : M (option (dict agent_value)) :=
  (agent_data <- redis_get "subctl:agents" ;;
   match agent_data with
   | Some text =>
       if str_truthy text then
         raw_data <- lift (json_loads text) ;;
         items <- lift (py_items raw_data) ;;
         res <- lift (decode_items items []) ;;
         ret (Some res)
       else ret None
   | None => ret None
   end)%M.

(** Lines 57 to 79: [except: pass], then the local cache. *)
Definition get_all_agents (self : SubCtlOrchestrator) : M (dict agent_value) :=
  (r <- try_except read_agents (fun _ => ret None) ;;
   match r with
   | Some res => ret res
   | None => ret (agents self)   (* Fallback: return local cache *)
   end)%M.

Definition get_agent_info (self : SubCtlOrchestrator) (agent_label : string)
  : M agent_value :=
  (all_agents <- get_all_agents self ;;
   match dict_get agent_label all_agents with
   | Some v => ret v
   | None => ret (Other VNone)
   end)%M.

Definition record_error (e : exc_class) : string :=
  "[red]Error recording event: " +:+ exc_str e +:+ "[/red]".

(** Lines 86 to 93. *)
Definition record_agent_event (self : SubCtlOrchestrator) (agent_label : string)
    (event : AgentEvent) : M unit :=
  try_except
    (let event_key := "subctl:events:" +:+ agent_label in
     _ <- lift (load_global module_globals "asdict") ;;
     payload <- lift (json_dumps (asdict event)) ;;
     _ <- redis_lpush event_key payload ;;
     _ <- redis_expire event_key 3600 ;;   (* Keep 1 hour *)
     ret tt)%M
    (fun e => console_print (record_error e)).

(** [generate_agents_table], lines 189 to 193. *)
Definition compliance_text (agent : agent_value) : result string :=
  (pc <- attr package_compliance agent ;;
   text <- format_spec ".1%" pc ;;
   severe <- py_lt_float pc 0.8 ;;
   if severe then Ok ("[red]" +:+ text +:+ "[/red]")
   else
     warning <- py_lt_float pc 0.95 ;;
     if warning then Ok ("[yellow]" +:+ text +:+ "[/yellow]")
     else Ok text)%res.

End Methods.
End SubctlPy.

(** ** A runtime to run the code on concrete input *)

Module Sample.

(** JSON text is written with an apostrophe for each double quote:
    [json "{'a': 1}"] is the text [{"a": 1}]. *)
Definition dquote : ascii := ascii_of_nat 34.

Fixpoint json (s : string) : string :=
  match s with
  | EmptyString => EmptyString
  | String c rest => String (if Ascii.eqb c "'" then dquote else c) (json rest)
  end.

Definition is_ws (c : ascii) : bool :=
  Ascii.eqb c " " || Ascii.eqb c (ascii_of_nat 10) || Ascii.eqb c (ascii_of_nat 13)
  || Ascii.eqb c (ascii_of_nat 9).

Fixpoint skip_ws (s : list ascii) : list ascii :=
  match s with
  | c :: rest => if is_ws c then skip_ws rest else s
  | [] => []
  end.

Definition digit_of (c : ascii) : option Z :=
  let n := Z.of_nat (nat_of_ascii c) in
  if (48 <=? n) && (n <=? 57) then Some (n - 48) else None.

(** The digits at the head of [s], as a number, with their count and the rest. *)
Fixpoint read_digits (s : list ascii) (acc : Z) (count : nat) : Z * nat * list ascii :=
  match s with
  | c :: rest =>
      match digit_of c with
      | Some d => read_digits rest (acc * 10 + d) (S count)
      | None => (acc, count, s)
      end
  | [] => (acc, count, [])
  end.

(** The characters of a string literal after its opening quote; escapes are
    not handled. *)
Fixpoint read_string (s : list ascii) (acc : list ascii) : option (string * list ascii) :=
  match s with
  | c :: rest =>
      if Ascii.eqb c dquote then Some (string_of_list_ascii (rev acc), rest)
      else if Ascii.eqb c "\" then None
      else read_string rest (c :: acc)
  | [] => None
  end.

Definition float_of_Z (n : Z) : float := PrimFloat.of_uint63 (Uint63.of_Z n).

(** A number: an integer, or a decimal fraction of at most 15 digits, which a
    single binary64 division converts exactly as [float] does. *)
Definition read_number (s : list ascii) : option (pyval * list ascii) :=
  let '(neg, s1) := match s with
                    | c :: rest => if Ascii.eqb c "-" then (true, rest) else (false, s)
                    | [] => (false, s)
                    end in
  let '(ip, n1, s2) := read_digits s1 0 0 in
  match n1 with
  | O => None
  | _ =>
      match s2 with
      | c :: s3 =>
          if Ascii.eqb c "." then
            let '(m, n2, s4) := read_digits s3 ip 0 in
            match n2 with
            | O => None
            | _ =>
                if Nat.leb (n1 + n2) 15 then
                  let x := PrimFloat.div (float_of_Z m) (float_of_Z (10 ^ Z.of_nat n2)) in
                  Some (VFloat (if neg then PrimFloat.opp x else x), s4)
                else None
            end
          else Some (VInt (if neg then - ip else ip), s2)
      | [] => Some (VInt (if neg then - ip else ip), s2)
      end
  end.

Fixpoint strip_prefix (p : list ascii) (s : list ascii) : option (list ascii) :=
  match p, s with
  | [], _ => Some s
  | a :: p', b :: s' => if Ascii.eqb a b then strip_prefix p' s' else None
  | _ :: _, [] => None
  end.

Definition read_literal (s : list ascii) : option (pyval * list ascii) :=
  match strip_prefix (list_ascii_of_string "null") s with
  | Some rest => Some (VNone, rest)
  | None =>
  match strip_prefix (list_ascii_of_string "true") s with
  | Some rest => Some (VBool true, rest)
  | None =>
  match strip_prefix (list_ascii_of_string "false") s with
  | Some rest => Some (VBool false, rest)
  | None => read_number s
  end end end.

(** A JSON value at the head of [s]; [fuel] bounds the nesting and the
    number of members. *)
Fixpoint read_value (fuel : nat) (s : list ascii) : option (pyval * list ascii) :=
  match fuel with
  | O => None
  | S fuel' =>
      match skip_ws s with
      | c :: rest =>
          if Ascii.eqb c "{" then
            match skip_ws rest with
            | c' :: rest' =>
                if Ascii.eqb c' "}" then Some (VDict [], rest')
                else read_members fuel' (c' :: rest') []
            | [] => None
            end
          else if Ascii.eqb c "[" then
            match skip_ws rest with
            | c' :: rest' =>
                if Ascii.eqb c' "]" then Some (VList [], rest')
                else read_elements fuel' (c' :: rest') []
            | [] => None
            end
          else if Ascii.eqb c dquote then
            match read_string rest [] with
            | Some (text, rest') => Some (VStr text, rest')
            | None => None
            end
          else read_literal (c :: rest)
      | [] => None
      end
  end
with read_members (fuel : nat) (s : list ascii) (acc : dict pyval)
  : option (pyval * list ascii) :=
  match fuel with
  | O => None
  | S fuel' =>
      match skip_ws s with
      | c :: rest =>
          if Ascii.eqb c dquote then
            match read_string rest [] with
            | Some (key, rest1) =>
                match skip_ws rest1 with
                | c1 :: rest2 =>
                    if Ascii.eqb c1 ":" then
                      match read_value fuel' rest2 with
                      | Some (v, rest3) =>
                          match skip_ws rest3 with
                          | c3 :: rest4 =>
                              if Ascii.eqb c3 "," then read_members fuel' rest4 (dict_set key v acc)
                              else if Ascii.eqb c3 "}" then Some (VDict (dict_set key v acc), rest4)
                              else None
                          | [] => None
                          end
                      | None => None
                      end
                    else None
                | [] => None
                end
            | None => None
            end
          else None
      | [] => None
      end
  end
with read_elements (fuel : nat) (s : list ascii) (acc : list pyval)
  : option (pyval * list ascii) :=
  match fuel with
  | O => None
  | S fuel' =>
      match read_value fuel' s with
      | Some (v, rest) =>
          match skip_ws rest with
          | c :: rest' =>
              if Ascii.eqb c "," then read_elements fuel' rest' (acc ++ [v])
              else if Ascii.eqb c "]" then Some (VList (acc ++ [v]), rest')
              else None
          | [] => None
          end
      | None => None
      end
  end.

(** [json.loads] on the JSON subset above. *)
Definition loads (text : string) : result pyval :=
  let s := list_ascii_of_string text in
  match read_value (S (List.length s)) s with
  | Some (v, rest) =>
      match skip_ws rest with
      | [] => Ok v
      | _ => Raise JSONDecodeError
      end
  | None => Raise JSONDecodeError
  end.


(** *** Text of numbers *)

Definition pad (width : nat) (text : string) : string :=
  string_of_list_ascii (repeat "0"%char (width - String.length text)) +:+ text.

Definition digits (n : Z) : string := pretty (Z.abs n).

(** The decimal digits of a natural number in groups of three ([{n:,}]). *)
Fixpoint group_thousands (fuel : nat) (n : Z) : string :=
  match fuel with
  | O => digits n
  | S fuel' =>
      if n <? 1000 then digits n
      else group_thousands fuel' (n / 1000) +:+ "," +:+ pad 3 (digits (n mod 1000))
  end.

Definition format_comma (n : Z) : string :=
  (if n <? 0 then "-" else "") +:+ group_thousands (Z.to_nat (Z.log2 (Z.abs n))) (Z.abs n).

(** The integer nearest to [x * 10^k] for a finite float [x] (ties to even). *)
Definition scaled (x : float) (k : Z) : option Z :=
  match Prim2SF x with
  | S754_zero _ => Some 0
  | S754_finite neg m e =>
      let num := Z.pos m * 10 ^ k * 2 ^ Z.max e 0 in
      let den := 2 ^ Z.max (- e) 0 in
      let q := num / den in
      let r := num mod den in
      let t := if (den <? 2 * r) || ((den =? 2 * r) && Z.odd q) then q + 1 else q in
      Some (if neg then - t else t)
  | _ => None
  end.

(** [t / 10^k] written with [k] decimals. *)
Definition fixed (t k : Z) : string :=
  (if t <? 0 then "-" else "") +:+ digits (Z.abs t / 10 ^ k)
  +:+ (if k =? 0 then "" else "." +:+ pad (Z.to_nat k) (digits (Z.abs t mod 10 ^ k))).

(** [{x:.1%}]: the binary64 product [x * 100], rounded to one decimal. *)
Definition format_percent1 (x : float) : string :=
  match scaled (PrimFloat.mul x 100%float) 1 with
  | Some t => fixed t 1 +:+ "%"
  | None => (if PrimFloat.eqb x x then
               if PrimFloat.ltb x 0%float then "-inf" else "inf"
             else "nan") +:+ "%"
  end.

(** [repr(x)] for a float that has at most 15 significant decimals: the
    shortest decimal that reads back as [x]. *)
Fixpoint float_repr_from (fuel : nat) (k : Z) (x : float) : string :=
  match fuel with
  | O => "<float>"
  | S fuel' =>
      match scaled x k with
      | Some t =>
          if (Z.abs t <? 10 ^ 15)
             && PrimFloat.eqb (PrimFloat.div (float_of_Z (Z.abs t)) (float_of_Z (10 ^ k)))
                              (PrimFloat.abs x)
          then (if k =? 0 then fixed t 0 +:+ ".0" else fixed t k)
          else float_repr_from fuel' (k + 1) x
      | None => if PrimFloat.eqb x x then
                  if PrimFloat.ltb x 0%float then "-inf" else "inf"
                else "nan"
      end
  end.

Definition float_repr (x : float) : string := float_repr_from 16 0 x.

(** *** str, format, strftime *)

Definition str (v : pyval) : string :=
  match v with
  | VNone => "None"
  | VBool b => if b then "True" else "False"
  | VInt n => (if n <? 0 then "-" else "") +:+ digits n
  | VFloat x => float_repr x
  | VStr s => s
  | _ => "<object>"     (* containers and datetimes are not printed here *)
  end.

(** The format codes the program uses, on the values that accept them. *)
Definition format (spec : string) (v : pyval) : result string :=
  if String.eqb spec "," then
    match v with
    | VInt n => Ok (format_comma n)
    | VBool b => Ok (format_comma (Z.b2z b))
    | VStr _ => Raise ValueError
    | _ => Raise TypeError
    end
  else if String.eqb spec ".1%" then
    match v with
    | VFloat x => Ok (format_percent1 x)
    | VInt n => Ok (fixed (n * 1000) 1 +:+ "%")
    | VBool b => Ok (fixed (Z.b2z b * 1000) 1 +:+ "%")
    | VStr _ => Raise ValueError
    | _ => Raise TypeError
    end
  else Raise ValueError.

Definition directive (c : ascii) (d : datetime) : string :=
  if Ascii.eqb c "Y" then pad 4 (digits (year d))
  else if Ascii.eqb c "m" then pad 2 (digits (month d))
  else if Ascii.eqb c "d" then pad 2 (digits (day d))
  else if Ascii.eqb c "H" then pad 2 (digits (hour d))
  else if Ascii.eqb c "M" then pad 2 (digits (minute d))
  else if Ascii.eqb c "S" then pad 2 (digits (second d))
  else String "%" (String c "").

Fixpoint strftime_chars (fmt : list ascii) (d : datetime) : string :=
  match fmt with
  | [] => ""
  | c :: rest =>
      if Ascii.eqb c "%" then
        match rest with
        | c' :: rest' => directive c' d +:+ strftime_chars rest' d
        | [] => "%"
        end
      else String c (strftime_chars rest d)
  end.

(** *** datetime.fromisoformat *)

Definition two_digits (s : list ascii) : option (Z * list ascii) :=
  match s with
  | a :: b :: rest =>
      match digit_of a, digit_of b with
      | Some x, Some y => Some (x * 10 + y, rest)
      | _, _ => None
      end
  | _ => None
  end.

Definition expect (c : ascii) (s : list ascii) : option (list ascii) :=
  match s with
  | c' :: rest => if Ascii.eqb c c' then Some rest else None
  | [] => None
  end.

Definition obind {A B} (o : option A) (k : A -> option B) : option B :=
  match o with Some a => k a | None => None end.

Declare Scope opt_scope.
Delimit Scope opt_scope with opt.
Notation "x <- c ;; k" := (obind c (fun x => k))
  (at level 100, c at next level, right associativity) : opt_scope.

(** [YYYY-MM-DD]. *)
Definition iso_date (s : list ascii) : option (Z * Z * Z * list ascii) :=
  (p1 <- two_digits s ;;
   p2 <- two_digits (snd p1) ;;
   s1 <- expect "-" (snd p2) ;;
   p3 <- two_digits s1 ;;
   s2 <- expect "-" (snd p3) ;;
   p4 <- two_digits s2 ;;
   Some (fst p1 * 100 + fst p2, fst p3, fst p4, snd p4))%opt.

(** [HH[:MM[:SS[.fff[fff]]]]]: hour, minute, second, microsecond. *)
Definition iso_time (s : list ascii) : option (Z * Z * Z * Z * list ascii) :=
  (p1 <- two_digits s ;;
   match expect ":" (snd p1) with
   | None => Some (fst p1, 0, 0, 0, snd p1)
   | Some s1 =>
       p2 <- two_digits s1 ;;
       match expect ":" (snd p2) with
       | None => Some (fst p1, fst p2, 0, 0, snd p2)
       | Some s2 =>
           p3 <- two_digits s2 ;;
           match expect "." (snd p3) with
           | None => Some (fst p1, fst p2, fst p3, 0, snd p3)
           | Some s3 =>
               let '(f, n, s4) := read_digits s3 0 0 in
               if Nat.eqb n 3 then Some (fst p1, fst p2, fst p3, f * 1000, s4)
               else if Nat.eqb n 6 then Some (fst p1, fst p2, fst p3, f, s4)
               else None
           end
       end
   end)%opt.

(** Nothing, or [+HH:MM] / [-HH:MM]: the offset in microseconds. *)
Definition iso_offset (s : list ascii) : option (option Z) :=
  match s with
  | [] => Some None
  | c :: rest =>
      (sign <- (if Ascii.eqb c "+" then Some 1
                else if Ascii.eqb c "-" then Some (-1) else None) ;;
       p1 <- two_digits rest ;;
       s1 <- expect ":" (snd p1) ;;
       p2 <- two_digits s1 ;;
       match snd p2 with
       | [] => if (fst p1 <? 24) && (fst p2 <? 60)
               then Some (Some (sign * (fst p1 * 3600 + fst p2 * 60) * 1000000))
               else None
       | _ => None
       end)%opt
  end.

(** [datetime.fromisoformat] on [YYYY-MM-DD[*HH[:MM[:SS[.fff[fff]]]][+HH:MM]]],
    where [*] is any one character: the grammar of Python 3.8 to 3.10, which
    later versions extend. *)
Definition parse_iso (text : string) : result datetime :=
  let parsed :=
    (date <- iso_date (list_ascii_of_string text) ;;
     let '(y, mo, d, s1) := date in
     match s1 with
     | [] => Some (mk_datetime y mo d 0 0 0 0 None)
     | _ :: s2 =>
         time <- iso_time s2 ;;
         let '(h, mi, s, us, s3) := time in
         tz <- iso_offset s3 ;;
         Some (mk_datetime y mo d h mi s us tz)
     end)%opt in
  match parsed with
  | Some dt => if datetime_valid dt then Ok dt else Raise ValueError
  | None => Raise ValueError
  end.

(** *** json.dumps *)

Definition quote (s : string) : string := String dquote s +:+ String dquote "".

Fixpoint join (sep : string) (parts : list string) : string :=
  match parts with
  | [] => ""
  | [p] => p
  | p :: rest => p +:+ sep +:+ join sep rest
  end.

(** The text of a serializable value, with the default separators; strings
    that need escapes are outside the examples. *)
Fixpoint dumps_text (v : pyval) : string :=
  match v with
  | VNone => "null"
  | VBool b => if b then "true" else "false"
  | VInt n => (if n <? 0 then "-" else "") +:+ digits n
  | VFloat x => float_repr x
  | VStr s => quote s
  | VList xs => "[" +:+ join ", " (map dumps_text xs) +:+ "]"
  | VDict kvs =>
      "{" +:+ join ", " (map (fun kv => let '(k, x) := kv in
                                        quote k +:+ ": " +:+ dumps_text x) kvs) +:+ "}"
  | VDatetime _ => ""
  end.

(** [str(e)]: a message typical of the class (payloads are not modelled). *)
Definition message (e : exc_class) : string :=
  match e with
  | ConnectionError => "Error 111 connecting to localhost:6379. Connection refused."
  | TimeoutError => "Timeout reading from socket"
  | ResponseError => "WRONGTYPE Operation against a key holding the wrong kind of value"
  | JSONDecodeError => "Expecting value: line 1 column 1 (char 0)"
  | ValueError => "Invalid isoformat string"
  | TypeError => "Object of type datetime is not JSON serializable"
  | AttributeError => "object has no attribute 'items'"
  | NameError => "name 'asdict' is not defined"
  end.

#[export] Instance runtime : Runtime := {
  json_loads := loads;
  json_text := dumps_text;
  fromisoformat := parse_iso;
  exc_str := message;
  py_str := str;
  format_spec := format;
  strftime fmt d := strftime_chars (list_ascii_of_string fmt) d
}.

End Sample.

(** ** Predicates the statements use *)

Definition is_ok {A} (r : result A) : bool :=
  match r with Ok _ => true | Raise _ => false end.

Fixpoint nodupb (l : list string) : bool :=
  match l with
  | [] => true
  | k :: rest => negb (existsb (String.eqb k) rest) && nodupb rest
  end.

Definition is_dict (v : pyval) : bool :=
  match v with VDict _ => true | _ => false end.

Definition is_str (v : pyval) : bool :=
  match v with VStr _ => true | _ => false end.

(** A value fits the annotation of the field [name] in [models.py]; in a
    blob [last_update] is text. *)
Definition field_type_ok (name : string) (v : pyval) : bool :=
  if existsb (String.eqb name) ["session_key"; "label"; "channel"; "status"; "last_update"]
  then is_str v
  else if String.eqb name "total_tokens"
  then match v with VInt _ => true | _ => false end
  else if String.eqb name "assigned_tickets"
  then match v with VList xs => forallb is_str xs | _ => false end
  else if existsb (String.eqb name) ["package_compliance"; "custom_code_ratio"]
  then match v with VFloat _ | VInt _ => true | _ => false end
  else if String.eqb name "consensus_proof"
  then match v with VNone | VStr _ => true | _ => false end
  else true.

(** What lines 37 to 47 make of the text the store returned. *)
Definition decode `{Runtime} (text : string) : result (dict agent_value) :=
  (raw_data <- json_loads text ;;
   items <- py_items raw_data ;;
   Orchestrator.decode_items items [])%res.

(** The ways an entry of the blob can be malformed. *)
Definition missing_field (fields : dict pyval) : Prop :=
  exists f, In f AgentInfo_fields /\ dict_get f fields = None.

Definition unexpected_field (fields : dict pyval) : Prop :=
  exists k, In k (dict_keys fields) /\ ~ In k AgentInfo_fields.

Definition malformed_timestamp `{Runtime} (fields : dict pyval) : Prop :=
  exists text e, dict_get "last_update" fields = Some (VStr text)
                 /\ fromisoformat text = Raise e.

Definition wrong_type (fields : dict pyval) : Prop :=
  exists f v, dict_get f fields = Some v /\ field_type_ok f v = false.

(** Both readers return the empty mapping whenever the store answers with a
    JSON object one of whose entries is [bad]. *)
Definition aborts_whole `{Runtime} (bad : dict pyval -> Prop) : Prop :=
  forall w text raw w1,
    redis_get "subctl:agents" w = (Ok (Some text), w1) ->
    str_truthy text = true ->
    json_loads text = Ok (VDict raw) ->
    (exists lbl fields, In (lbl, VDict fields) raw /\ bad fields) ->
    fst (Orchestrator.get_all_agents w) = Ok []
    /\ fst (SubctlPy.get_all_agents SubctlPy.init w) = Ok [].

(** An entry with exactly the ten fields, each of its annotated type, and a
    timestamp the parser reads. *)
Definition well_formed_entry `{Runtime} (v : pyval) : bool :=
  match v with
  | VDict fields =>
      nodupb (dict_keys fields)
      && forallb (fun k => existsb (String.eqb k) AgentInfo_fields) (dict_keys fields)
      && forallb (fun f => dict_contains f fields) AgentInfo_fields
      && forallb (fun kv => field_type_ok (fst kv) (snd kv)) fields
      && match dict_get "last_update" fields with
         | Some (VStr text) => is_ok (fromisoformat text)
         | _ => false
         end
  | _ => false
  end.

Definition well_formed_blob `{Runtime} (raw : dict pyval) : bool :=
  nodupb (dict_keys raw) && forallb (fun kv => well_formed_entry (snd kv)) raw.

(** Some encoder takes every decoded well-formed blob back to the blob. *)
Definition round_trip_identity `{Runtime}
    (encode : dict agent_value -> dict pyval) : Prop :=
  forall raw S, well_formed_blob raw = true ->
                Orchestrator.decode_items raw [] = Ok S -> encode S = raw.

(** Every record of the snapshot carries a naive datetime in [last_update]. *)
Definition naive_timestamps (S : dict agent_value) : bool :=
  forallb (fun kv => match snd kv with
                     | Agent a => match last_update a with
                                  | VDatetime d => match tzinfo d with
                                                   | None => true
                                                   | Some _ => false
                                                   end
                                  | _ => false
                                  end
                     | Other _ => true
                     end) S.

(** What the liveness loop keeps: records whose age it could
    compute and found within the threshold. *)
Definition recent (now : datetime) (T : Z) (v : agent_value) : Prop :=
  exists a d td, v = Agent a /\ last_update a = VDatetime d
                 /\ datetime_sub now d = Ok td /\ td <= timedelta_minutes T.

(** The records of a snapshot, without the values that are no [AgentInfo]. *)
Definition records_only (snapshot : dict agent_value) : dict agent_value :=
  List.filter (fun kv => match snd kv with Agent _ => true | Other _ => false end)
              snapshot.

(** ** Sample worlds *)

Module Demo.
Import Sample.

(** One entry of a blob: the label, the timestamp and the token count vary. *)
Definition agent_json (name stamp tokens : string) : string :=
  "'" +:+ name +:+ "': {'session_key': 'sess-" +:+ name +:+ "', 'label': '" +:+ name
  +:+ "', 'channel': 'main', 'total_tokens': " +:+ tokens
  +:+ ", 'status': 'working', 'last_update': '" +:+ stamp
  +:+ "', 'assigned_tickets': ['T-1', 'T-2'], 'package_compliance': 0.9, "
  +:+ "'custom_code_ratio': 0.25, 'consensus_proof': null}".

(** Four labels: one updated 5 minutes before noon, one 15 minutes before,
    one half an hour after, and one that is no record at all. *)
Definition fleet_text : string :=
  json ("{" +:+ agent_json "alpha" "2024-01-01T11:55:00" "1200"
        +:+ ", " +:+ agent_json "beta" "2024-01-01T11:45:00" "3400"
        +:+ ", " +:+ agent_json "gamma" "2024-01-01T12:30:00" "5"
        +:+ ", 'note': 'maintenance'}").

Definition noon : datetime := mk_datetime 2024 1 1 12 0 0 0 None.

Definition world_with (text : string) (plan : list (option exc_class)) : world :=
  mk_world {[ "subctl:agents" := mk_entry (RString text) None ]} plan [] noon.

Definition fleet : world := world_with fleet_text [].

Definition at_time (h m : Z) : datetime := mk_datetime 2024 1 1 h m 0 0 None.

Definition agent_record (name : string) (stamp : datetime) (tokens : pyval) : AgentInfo :=
  mk_AgentInfo (VStr ("sess-" +:+ name)) (VStr name) (VStr "main") tokens
               (VStr "working") (VDatetime stamp) (VList [VStr "T-1"; VStr "T-2"])
               (VFloat 0.9) (VFloat 0.25) VNone.

(** The fields [json.loads] reads from one entry written by [agent_json]. *)
Definition entry_fields (name stamp : string) (tokens : pyval) : dict pyval :=
  [("session_key", VStr ("sess-" +:+ name)); ("label", VStr name);
   ("channel", VStr "main"); ("total_tokens", tokens); ("status", VStr "working");
   ("last_update", VStr stamp); ("assigned_tickets", VList [VStr "T-1"; VStr "T-2"]);
   ("package_compliance", VFloat 0.9); ("custom_code_ratio", VFloat 0.25);
   ("consensus_proof", VNone)].

(** The mapping [fleet_text] decodes to. *)
Definition fleet_snapshot : dict agent_value :=
  [("alpha", Agent (agent_record "alpha" (at_time 11 55) (VInt 1200)));
   ("beta", Agent (agent_record "beta" (at_time 11 45) (VInt 3400)));
   ("gamma", Agent (agent_record "gamma" (at_time 12 30) (VInt 5)));
   ("note", Other (VStr "maintenance"))].

(** The store refuses the connection. *)
Definition store_down : world := world_with fleet_text [Some ConnectionError].

(** [total_tokens] holds a string. *)
Definition mistyped_text : string :=
  json ("{" +:+ agent_json "alpha" "2024-01-01T11:55:00" "'many'" +:+ "}").

(** [last_update] is no timestamp. *)
Definition misdated_text : string :=
  json ("{" +:+ agent_json "alpha" "2024-01-01T11:55:00" "1200"
        +:+ ", " +:+ agent_json "beta" "yesterday" "3400" +:+ "}").

(** [last_update] carries a UTC offset. *)
Definition aware_text : string :=
  json ("{" +:+ agent_json "alpha" "2024-01-01T11:55:00+00:00" "1200" +:+ "}").

(** The same instant written with [T] and with a space. *)
Definition stamp_T_text : string :=
  json ("{" +:+ agent_json "alpha" "2024-01-01T11:55:00" "1200" +:+ "}").
Definition stamp_space_text : string :=
  json ("{" +:+ agent_json "alpha" "2024-01-01 11:55:00" "1200" +:+ "}").

Definition blob_of (text : string) : dict pyval :=
  match loads text with
  | Ok (VDict raw) => raw
  | _ => []
  end.

Definition started : AgentEvent :=
  mk_AgentEvent (VStr "sess-x") (VStr "started")
                (VDatetime (mk_datetime 2024 1 1 11 59 30 0 None))
                (VDict [("ticket", VStr "T-1")]) (VStr "9f2c").

(** The same event with its timestamp already turned into text. *)
Definition started_as_text : AgentEvent :=
  mk_AgentEvent (VStr "sess-x") (VStr "started") (VStr "2024-01-01T11:59:30")
                (VDict [("ticket", VStr "T-1")]) (VStr "9f2c").

End Demo.

(** ** rich: the table of [generate_agents_table] *)

(** What the command-line layer can raise besides the exceptions above:
    [rich.errors.NotRenderableError], which [Table.add_row] raises for a cell
    that is neither text nor [None]. *)
Inductive cli_exc : Type :=
| Python (e : exc_class)
| NotRenderableError.

Inductive cresult (A : Type) : Type :=
| Done (a : A)
| Fail (e : cli_exc).
Arguments Done {A} a.
Arguments Fail {A} e.

Definition cbind {A B} (r : cresult A) (k : A -> cresult B) : cresult B :=
  match r with
  | Done a => k a
  | Fail e => Fail e
  end.

(** A result of the layer below, seen from the command line. *)
Definition py {A} (r : result A) : cresult A :=
  match r with
  | Ok a => Done a
  | Raise e => Fail (Python e)
  end.

Declare Scope cres_scope.
Delimit Scope cres_scope with cres.
Notation "x <- c ;; k" := (cbind c (fun x => k))
  (at level 100, c at next level, right associativity) : cres_scope.

(** A column as [Table.add_column] declares it; [justify] is ["left"] and
    [no_wrap] is [False] unless given. *)
Record Column : Type := mk_Column {
  header : string;
  style : string;
  justify : string;
  no_wrap : bool
}.

(** A [rich.table.Table]: its title, its columns and the cells of its rows,
    in the order of the [add_row] calls. *)
Record Table : Type := mk_Table {
  title : string;
  columns : list Column;
  rows : list (list string)
}.

Definition add_column (c : Column) (t : Table) : Table :=
  mk_Table (title t) (columns t ++ [c]) (rows t).

(** One cell of [add_row]: text stays, [None] is the empty cell, any other
    value of a snapshot is not renderable. *)
Definition renderable (v : pyval) : cresult string :=
  match v with
  | VStr s => Done s
  | VNone => Done ""
  | _ => Fail NotRenderableError
  end.

Fixpoint renderables (cells : list pyval) : cresult (list string) :=
  match cells with
  | [] => Done []
  | v :: rest => (s <- renderable v ;; ss <- renderables rest ;; Done (s :: ss))%cres
  end.

(** [table.add_row(...)], called with as many cells as the table has
    columns. *)
Definition add_row (cells : list pyval) (t : Table) : cresult Table :=
  (ss <- renderables cells ;; Done (mk_Table (title t) (columns t) (rows t ++ [ss])))%cres.

(** ** The expressions of a table row *)

(** The dict display of lines 31 to 36 and its [.get(key, "white")]: a list
    or a dict cannot be hashed; a key that is no string equals none of the
    four. *)
Definition status_color_get (key : pyval) : result string :=
  match key with
  | VList _ | VDict _ => Raise TypeError
  | VStr s =>
      Ok (if String.eqb s "working" then "green"
          else if String.eqb s "stalled" then "red"
          else if String.eqb s "completed" then "blue"
          else if String.eqb s "error" then "red"
          else "white")
  | _ => Ok "white"
  end.

(** [v[:3]]: the first three items of a list, the first three characters of
    a string.  Nothing else in a snapshot can be sliced (a dict refuses the
    slice as a key: [TypeError] up to Python 3.11, the versions [setup.py]
    lists). *)
Definition slice3 (v : pyval) : result pyval :=
  match v with
  | VList xs => Ok (VList (firstn 3 xs))
  | VStr s => Ok (VStr (string_of_list_ascii (firstn 3 (list_ascii_of_string s))))
  | _ => Raise TypeError
  end.

Fixpoint str_join (sep : string) (parts : list string) : string :=
  match parts with
  | [] => ""
  | [p] => p
  | p :: rest => p +:+ sep +:+ str_join sep rest
  end.

(** The items of an iterable, when all of them are strings. *)
Fixpoint str_items (xs : list pyval) : result (list string) :=
  match xs with
  | [] => Ok []
  | VStr s :: rest => (ss <- str_items rest ;; Ok (s :: ss))%res
  | _ :: _ => Raise TypeError
  end.

(** [sep.join(v)]: [v] is iterated (a string by characters, a dict by keys)
    and every item has to be a string. *)
Definition py_join (sep : string) (v : pyval) : result string :=
  match v with
  | VList xs => (ss <- str_items xs ;; Ok (str_join sep ss))%res
  | VStr s => Ok (str_join sep (map (fun c => String c "") (list_ascii_of_string s)))
  | VDict kvs => Ok (str_join sep (map fst kvs))
  | _ => Raise TypeError
  end.

(** [v.strftime(fmt)]: only a datetime has the method. *)
Definition py_strftime `{Runtime} (fmt : string) (v : pyval) : result string :=
  match v with
  | VDatetime d => Ok (strftime fmt d)
  | _ => Raise AttributeError
  end.

(** [if agents:] for a dict. *)
Definition nonempty {V} (d : dict V) : bool :=
  match d with [] => false | _ => true end.

(** ** The terminal *)

(** The text the terminal shows for a table, and the usage text of the
    argument parser: both are the libraries' business. *)
Class Terminal : Type := {
  render_table : Table -> string;
  help_text : string
}.

Definition with_clock (d : datetime) (w : world) : world :=
  mk_world (redis w) (faults w) (console w) d.

(** A command: a computation on the world that may raise any [cli_exc]. *)
Definition C (A : Type) : Type := world -> cresult A * world.

Definition cret {A} (a : A) : C A := fun w => (Done a, w).

Definition cbindM {A B} (c : C A) (k : A -> C B) : C B :=
  fun w => match c w with
           | (Done a, w') => k a w'
           | (Fail e, w') => (Fail e, w')
           end.

(** A method of the orchestrator, called from a command. *)
Definition call {A} (c : M A) : C A :=
  fun w => match c w with
           | (Ok a, w') => (Done a, w')
           | (Raise e, w') => (Fail (Python e), w')
           end.

Definition clift {A} (r : cresult A) : C A := fun w => (r, w).

Declare Scope cli_scope.
Delimit Scope cli_scope with C.
Notation "x <- c ;; k" := (cbindM c (fun x => k))
  (at level 100, c at next level, right associativity) : cli_scope.
Notation "c ;;; k" := (cbindM c (fun _ => k))
  (at level 100, right associativity) : cli_scope.

(** [console.print(table)]. *)
Definition print_table `{Terminal} (t : Table) : C unit :=
  call (console_print (render_table t)).

(** [parser.print_help()]: the usage text goes to the same terminal. *)
Definition print_help `{Terminal} : C unit :=
  call (console_print help_text).

(** [time.sleep(seconds)]: a negative length is a [ValueError]; otherwise the
    call returns when the clock shows [woken]. *)
Definition sleep (seconds : Z) (woken : datetime) : C unit :=
  fun w => if seconds <? 0 then (Fail (Python ValueError), w)
           else (Done tt, with_clock woken w).

(** The parsed command line, [args]. *)
Record Namespace : Type := mk_Namespace {
  command : option string;
  agents_command : option string;
  watch : bool;
  refresh : Z;
  stale : bool;
  agent_label : string;
  logs : bool;
  tools : bool;
  tokens : bool;
  packages : bool
}.

(** [if not args.command:]. *)
Definition no_command (args : Namespace) : bool :=
  match command args with
  | None => true
  | Some c => negb (str_truthy c)
  end.

Definition is_command (c : option string) (name : string) : bool :=
  match c with
  | Some s => String.eqb s name
  | None => false
  end.

(** ** src/subctl/cli.py: the table and [main] *)

Module CliMain.
Section Commands.
Context `{Runtime} `{Terminal}.

(** Lines 21 to 28. *)
Definition empty_table : Table :=
  add_column (mk_Column "Last Update" "dim" "left" false)
    (add_column (mk_Column "Tickets" "blue" "left" false)
      (add_column (mk_Column "Package Compliance" "yellow" "right" false)
        (add_column (mk_Column "Tokens" "green" "right" false)
          (add_column (mk_Column "Status" "magenta" "left" false)
            (add_column (mk_Column "Agent" "cyan" "left" true)
              (mk_Table "Sub-Agent Status" [] [])))))).

(** Lines 31 to 51: the cells of the row of [agent], as [add_row] receives
    them.  The arguments are evaluated from left to right before the call. *)
Definition row_cells (agent : agent_value) : result (list pyval) :=
  (key <- attr status agent ;;
   status_color <- status_color_get key ;;
   compliance_text <- Cli.compliance_text agent ;;
   name <- attr label agent ;;
   state <- attr status agent ;;
   let status_text :=
     "[" +:+ status_color +:+ "]" +:+ str_of state +:+ "[/" +:+ status_color +:+ "]" in
   count <- attr total_tokens agent ;;
   tokens_text <- format_spec "," count ;;
   tickets <- attr assigned_tickets agent ;;
   first_three <- slice3 tickets ;;
   tickets_text <- py_join ", " first_three ;;
   stamp <- attr last_update agent ;;
   time_text <- py_strftime "%H:%M:%S" stamp ;;
   Ok [name; VStr status_text; VStr tokens_text; VStr compliance_text;
       VStr tickets_text; VStr time_text])%res.

(** Lines 30 to 51: the loop over [agents.values()]. *)
Fixpoint add_rows (values : list agent_value) (table : Table) : cresult Table :=
  match values with
  | [] => Done table
  | agent :: rest =>
      (cells <- py (row_cells agent) ;;
       table' <- add_row cells table ;;
       add_rows rest table')%cres
  end.

Definition generate_agents_table (agents : dict agent_value) : cresult Table :=
  add_rows (map snd agents) empty_table.

(** Lines 96 to 102, and again lines 116 to 121: the active agents as a
    table, or the two lines that say there are none. *)
Definition show_active : C unit :=
  (agents <- call (Orchestrator.get_active_agents None) ;;
   if nonempty agents then
     table <- clift (generate_agents_table agents) ;;
     print_table table
   else
     call (console_print "[yellow]No active agents found[/yellow]") ;;;
     call (console_print "[dim]Use --stale to see historical data[/dim]"))%C.

(** Lines 109 to 113. *)
Definition show_all : C unit :=
  (agents <- call Orchestrator.get_all_agents ;;
   if nonempty agents then
     table <- clift (generate_agents_table agents) ;;
     print_table table
   else call (console_print "[yellow]No agent data found in Redis[/yellow]"))%C.

(** Lines 95 to 105: [while True] under [except KeyboardInterrupt].  A run of
    the loop is described by [wakeups], the clock readings at which the calls
    of [time.sleep] returned: the operator's interrupt is taken to arrive
    during the sleep after the last of them, where the loop spends its time. *)
Fixpoint watch_loop (seconds : Z) (wakeups : list datetime) : C unit :=
  (show_active ;;;
   match wakeups with
   | woken :: rest => sleep seconds woken ;;; watch_loop seconds rest
   | [] =>
       (* the last call of time.sleep: refused, or cut short by the interrupt *)
       if seconds <? 0 then clift (Fail (Python ValueError))
       else call (console_print (newline +:+ "[dim]Monitoring stopped[/dim]"))
   end)%C.

(** Lines 90 to 121: [agents list]. *)
Definition list_agents (args : Namespace) (wakeups : list datetime) : C unit :=
  if watch args then
    (call (console_print "[bold blue]Real-time Agent Monitoring[/bold blue]") ;;;
     watch_loop (refresh args) wakeups)%C
  else if stale args then show_all
  else show_active.

(** [main], lines 83 to 148, from the parsed arguments on. *)
Definition main (args : Namespace) (wakeups : list datetime) : C unit :=
  if no_command args then print_help
  else if is_command (command args) "agents" then
    if is_command (agents_command args) "list" then list_agents args wakeups
    else if is_command (agents_command args) "inspect" then
      call (Cli.inspect (agent_label args) (logs args) (tools args) (tokens args)
              (packages args))
    else cret tt
  else cret tt.

End Commands.
End CliMain.

(** ** src/subctl.py: the table and [main] *)

Module SubctlPyMain.
Section Commands.
Context `{Runtime} `{Terminal}.

(** Lines 172 to 179. *)
Definition empty_table : Table :=
  add_column (mk_Column "Last Update" "dim" "left" false)
    (add_column (mk_Column "Tickets" "blue" "left" false)
      (add_column (mk_Column "Package Compliance" "yellow" "right" false)
        (add_column (mk_Column "Tokens" "green" "right" false)
          (add_column (mk_Column "Status" "magenta" "left" false)
            (add_column (mk_Column "Agent" "cyan" "left" true)
              (mk_Table "Sub-Agent Status" [] [])))))).

(** Lines 182 to 202. *)
Definition row_cells (agent : agent_value) : result (list pyval) :=
  (key <- attr status agent ;;
   status_color <- status_color_get key ;;
   compliance_text <- SubctlPy.compliance_text agent ;;
   name <- attr label agent ;;
   state <- attr status agent ;;
   let status_text :=
     "[" +:+ status_color +:+ "]" +:+ str_of state +:+ "[/" +:+ status_color +:+ "]" in
   count <- attr total_tokens agent ;;
   tokens_text <- format_spec "," count ;;
   tickets <- attr assigned_tickets agent ;;
   first_three <- slice3 tickets ;;
   tickets_text <- py_join ", " first_three ;;
   stamp <- attr last_update agent ;;
   time_text <- py_strftime "%H:%M:%S" stamp ;;
   Ok [name; VStr status_text; VStr tokens_text; VStr compliance_text;
       VStr tickets_text; VStr time_text])%res.

(** Lines 181 to 202. *)
Fixpoint add_rows (values : list agent_value) (table : Table) : cresult Table :=
  match values with
  | [] => Done table
  | agent :: rest =>
      (cells <- py (row_cells agent) ;;
       table' <- add_row cells table ;;
       add_rows rest table')%cres
  end.

Definition generate_agents_table (agents : dict agent_value) : cresult Table :=
  add_rows (map snd agents) empty_table.

(** Lines 134 to 136, and again line 141: every agent the reader returns,
    as a table. *)
Definition show_all (self : SubctlPy.SubCtlOrchestrator) : C unit :=
  (agents <- call (SubctlPy.get_all_agents self) ;;
   table <- clift (generate_agents_table agents) ;;
   print_table table)%C.

(** Lines 132 to 139, a run described as for [cli.py]. *)
Fixpoint watch_loop (self : SubctlPy.SubCtlOrchestrator) (seconds : Z)
    (wakeups : list datetime) : C unit :=
  (show_all self ;;;
   match wakeups with
   | woken :: rest => sleep seconds woken ;;; watch_loop self seconds rest
   | [] =>
       (* the last call of time.sleep: refused, or cut short by the interrupt *)
       if seconds <? 0 then clift (Fail (Python ValueError))
       else call (console_print (newline +:+ "[dim]Monitoring stopped[/dim]"))
   end)%C.

(** Lines 143 to 168: [agents inspect]. *)
Definition inspect (self : SubctlPy.SubCtlOrchestrator) (agent_label : string)
    (logs tools tokens packages : bool) : M unit :=
  (agent_info <- SubctlPy.get_agent_info self agent_label ;;
   if truthy agent_info then
     v <- lift (attr label agent_info) ;;
     console_print ("[bold]Agent: " +:+ str_of v +:+ "[/bold]") ;;;
     v <- lift (attr status agent_info) ;;
     console_print ("Status: " +:+ str_of v) ;;;
     v <- lift (attr total_tokens agent_info) ;;
     text <- lift (format_spec "," v) ;;
     console_print ("Tokens: " +:+ text) ;;;
     v <- lift (attr package_compliance agent_info) ;;
     text <- lift (format_spec ".1%" v) ;;
     console_print ("Package Compliance: " +:+ text) ;;;
     v <- lift (attr last_update agent_info) ;;
     text <- lift (py_strftime "%Y-%m-%d %H:%M:%S" v) ;;
     console_print ("Last Update: " +:+ text) ;;;
     Cli.section_header logs "Recent Activity (last 10 minutes)" ;;;
     Cli.section_header tools "Recent Tool Calls" ;;;
     Cli.section_header tokens "Token Usage" ;;;
     Cli.section_header packages "Package Compliance"
   else console_print (Cli.not_found agent_label))%M.

(** [main], lines 121 to 168; [__init__] has run by line 125. *)
Definition main (args : Namespace) (wakeups : list datetime) : C unit :=
  if no_command args then print_help
  else
    let orchestrator := SubctlPy.init in
    if is_command (command args) "agents" then
      if is_command (agents_command args) "list" then
        if watch args then
          (call (console_print "[bold blue]Real-time Agent Monitoring[/bold blue]") ;;;
           watch_loop orchestrator (refresh args) wakeups)%C
        else show_all orchestrator
      else if is_command (agents_command args) "inspect" then
        call (inspect orchestrator (agent_label args) (logs args) (tools args)
                (tokens args) (packages args))
      else cret tt
    else cret tt.

End Commands.
End SubctlPyMain.

(** ** A terminal to run the commands on *)

Module Plain.

(** The table as lines of text: the title, the headers, the rows. *)
Definition render (t : Table) : string :=
  str_join newline
    (title t :: str_join " | " (map header (columns t))
     :: map (str_join " | ") (rows t)).

#[export] Instance terminal : Terminal := {
  render_table := render;
  help_text := "usage: subctl [-h] {agents} ..."
}.

End Plain.

(** ** More predicates and sample worlds *)

(** What the liveness loop keeps of a snapshot whose timestamps are naive:
    the records at most [T] minutes old. *)
Definition fresh (now : datetime) (T : Z) (v : agent_value) : bool :=
  match v with
  | Agent a =>
      match last_update a with
      | VDatetime d => elapsed now d <=? timedelta_minutes T
      | _ => false
      end
  | Other _ => false
  end.

Definition fresh_items (now : datetime) (T : Z) (snapshot : dict agent_value)
  : dict agent_value :=
  List.filter (fun kv => fresh now T (snd kv)) snapshot.

(** The first [n] calls of the client go through. *)
Definition goes_through (n : nat) (w : world) : bool :=
  forallb (fun f => match f with None => true | Some _ => false end)
          (firstn n (faults w)).

Definition event_key (agent_label : string) : string :=
  "subctl:events:" +:+ agent_label.

(** The events recorded for a label, most recent first. *)
Definition events_of (w : world) (agent_label : string) : list string :=
  match redis w !! event_key agent_label with
  | Some (mk_entry (RList items) _) => items
  | _ => []
  end.

Definition ttl_of (w : world) (key : string) : option Z :=
  match redis w !! key with
  | Some e => ttl e
  | None => None
  end.

Definition holds_text (w : world) (key : string) : bool :=
  match redis w !! key with
  | Some (mk_entry (RString _) _) => true
  | _ => false
  end.

(** A producer that records one event after the other. *)
Fixpoint record_each `{Runtime} (self : SubctlPy.SubCtlOrchestrator)
    (agent_label : string) (events : list AgentEvent) : M unit :=
  match events with
  | [] => ret tt
  | event :: rest =>
      (SubctlPy.record_agent_event self agent_label event ;;;
       record_each self agent_label rest)%M
  end.

Definition with_tickets (tickets : pyval) (a : AgentInfo) : AgentInfo :=
  mk_AgentInfo (session_key a) (label a) (channel a) (total_tokens a) (status a)
               (last_update a) tickets (package_compliance a) (custom_code_ratio a)
               (consensus_proof a).

(** The same value with its list of tickets cut after the third. *)
Definition first_three_tickets (v : agent_value) : agent_value :=
  match v with
  | Agent a =>
      match assigned_tickets a with
      | VList xs => Agent (with_tickets (VList (firstn 3 xs)) a)
      | _ => v
      end
  | Other _ => v
  end.

(** The lines [agents inspect] prints for a record, and for its flags. *)
Definition identity_lines `{Runtime} (a : AgentInfo) (count percent : string)
    (d : datetime) : list string :=
  ["[bold]Agent: " +:+ str_of (label a) +:+ "[/bold]";
   "Status: " +:+ str_of (status a);
   "Tokens: " +:+ count;
   "Package Compliance: " +:+ percent;
   "Last Update: " +:+ strftime "%Y-%m-%d %H:%M:%S" d].

Definition section_line (flag : bool) (name : string) : list string :=
  if flag then [newline +:+ "[dim]--- " +:+ name +:+ " ---[/dim]"] else [].

Definition section_lines (logs tools tokens packages : bool) : list string :=
  section_line logs "Recent Activity (last 10 minutes)"
  ++ section_line tools "Recent Tool Calls"
  ++ section_line tokens "Token Usage"
  ++ section_line packages "Package Compliance".

(** What one round of the watch loop prints while the store is down. *)
Definition outage_lines `{Runtime} (e : exc_class) : list string :=
  [Orchestrator.read_error e; "[yellow]No active agents found[/yellow]";
   "[dim]Use --stale to see historical data[/dim]"].

Definition is_datetime (v : pyval) : bool :=
  match v with VDatetime _ => true | _ => false end.

(** A call that went to the store once and changed nothing there. *)
Definition only_read (w w' : world) : Prop :=
  redis w' = redis w /\ clock w' = clock w /\ faults w' = tl (faults w).

(** The same command line with [--stale] given or left out. *)
Definition with_stale (b : bool) (args : Namespace) : Namespace :=
  mk_Namespace (command args) (agents_command args) (watch args) (refresh args) b
               (agent_label args) (logs args) (tools args) (tokens args) (packages args).

Definition stopped_line : string := newline +:+ "[dim]Monitoring stopped[/dim]".

Definition table_headers : list string :=
  ["Agent"; "Status"; "Tokens"; "Package Compliance"; "Tickets"; "Last Update"].

(** A row of the table for [agent]: a record, shown under its [label] field
    and with the time of day of its [last_update]. *)
Definition row_of `{Runtime} (agent : agent_value) (row : list string) : Prop :=
  exists a name d,
    agent = Agent a /\ renderable (label a) = Done name /\ last_update a = VDatetime d
    /\ hd "" row = name /\ nth 5 row "" = strftime "%H:%M:%S" d
    /\ length row = 6%nat.

Module Scenes.
Import Sample.

(** A server without any key. *)
Definition empty_store : world := mk_world ∅ [] [] Demo.noon.

(** The mapping [Demo.aware_text] decodes to. *)
Definition aware_snapshot : dict agent_value :=
  [("alpha", Agent (Demo.agent_record "alpha"
                      (mk_datetime 2024 1 1 11 55 0 0 (Some 0)) (VInt 1200)))].

(** A label whose value is [null], beside a record without timestamp. *)
Definition ghost_text : string :=
  json ("{'ghost': null, 'draft': {'session_key': 's', 'label': 'draft', "
        +:+ "'channel': 'main', 'total_tokens': 7, 'status': 'idle', "
        +:+ "'last_update': null, 'assigned_tickets': [], "
        +:+ "'package_compliance': 1, 'custom_code_ratio': 0, "
        +:+ "'consensus_proof': null}}").

Definition draft : AgentInfo :=
  mk_AgentInfo (VStr "s") (VStr "draft") (VStr "main") (VInt 7) (VStr "idle") VNone
               (VList []) (VInt 1) (VInt 0) VNone.

Definition ghost_snapshot : dict agent_value :=
  [("ghost", Other VNone); ("draft", Agent draft)].

(** The blob is JSON, but a list. *)
Definition list_text : string := json "['alpha', 'beta']".

(** A record with five tickets. *)
Definition busy : AgentInfo :=
  mk_AgentInfo (VStr "s") (VStr "busy") (VStr "main") (VInt 1234567) (VStr "stalled")
               (VDatetime (Demo.at_time 11 58))
               (VList [VStr "T-1"; VStr "T-2"; VStr "T-3"; VStr "T-4"; VInt 5])
               (VFloat 0.5) (VFloat 0.1) VNone.

(** The fields of [alpha], in another order. *)
Definition shuffled_fields : dict pyval :=
  rev (Demo.entry_fields "alpha" "2024-01-01T11:55:00" (VInt 1200)).

(** The key of the label [x] already holds one event that expires in 20
    seconds. *)
Definition one_event : world :=
  mk_world {[ "subctl:events:x" := mk_entry (RList ["{}"]) (Some 20) ]} [] [] Demo.noon.

Definition finished : AgentEvent :=
  mk_AgentEvent (VStr "sess-x") (VStr "finished") (VStr "2024-01-01T12:00:00")
                (VDict []) (VStr "77aa").

(** [alpha] and [busy], and the rows of their table. *)
Definition pair : dict agent_value :=
  [("alpha", Agent (Demo.agent_record "alpha" (Demo.at_time 11 55) (VInt 1200)));
   ("busy", Agent busy)].

Definition pair_rows : list (list string) :=
  [["alpha"; "[green]working[/green]"; "1,200"; "[yellow]90.0%[/yellow]";
    "T-1, T-2"; "11:55:00"];
   ["busy"; "[red]stalled[/red]"; "1,234,567"; "[red]50.0%[/red]";
    "T-1, T-2, T-3"; "11:58:00"]].

(** A record whose compliance is NaN. *)
Definition unrated : AgentInfo :=
  mk_AgentInfo (VStr "s") (VStr "a") (VStr "main") (VInt 0) (VStr "working")
               (VDatetime Demo.noon) (VList []) (VFloat PrimFloat.nan) (VFloat 0) VNone.

End Scenes.

(** * Properties *)

Ltac lookup_month :=
  cbv [nth Z.to_nat Pos.to_nat Pos.iter_op Nat.add Z.eqb Z.ltb Z.compare
       Pos.compare Pos.compare_cont Pos.eqb andb].

Ltac month_cases m :=
  let Hm := fresh in
  assert (m = 1 \/ m = 2 \/ m = 3 \/ m = 4 \/ m = 5 \/ m = 6 \/ m = 7 \/ m = 8
          \/ m = 9 \/ m = 10 \/ m = 11 \/ m = 12) as Hm by lia;
  repeat (destruct Hm as [Hm|Hm]; [subst m|]); [..|subst m].

Ltac unbool H :=
  repeat first [ rewrite orb_true_iff in H | rewrite andb_true_iff in H
               | rewrite Z.leb_le in H | rewrite Z.ltb_lt in H | rewrite Z.eqb_eq in H ].

(** ** The calendar *)

Section Calendar.

Lemma days_before_year_succ y :
  days_before_year (y + 1) = days_before_year y + 365 + (if is_leap y then 1 else 0).
Proof.
  unfold days_before_year, is_leap.
  replace (y + 1 - 1) with y by lia.
  destruct (Z.eqb_spec (y mod 4) 0), (Z.eqb_spec (y mod 100) 0),
    (Z.eqb_spec (y mod 400) 0); cbn [andb orb negb];
    Z.div_mod_to_equations; lia.
Qed.

Lemma days_before_year_mono y1 y2 :
  y1 <= y2 -> days_before_year y1 <= days_before_year y2.
Proof. unfold days_before_year. intros. Z.div_mod_to_equations. lia. Qed.

(** The day of the year of a valid date. *)
Lemma day_of_year_bounds y m d :
  1 <= m <= 12 -> 1 <= d <= days_in_month y m ->
  1 <= days_before_month y m + d <= 365 + (if is_leap y then 1 else 0).
Proof.
  intros Hm. unfold days_before_month, days_in_month, DAYS_BEFORE_MONTH, DAYS_IN_MONTH.
  month_cases m; destruct (is_leap y); lookup_month; lia.
Qed.

Lemma day_of_year_mono y m1 d1 m2 d2 :
  1 <= m1 -> m1 < m2 -> m2 <= 12 ->
  d1 <= days_in_month y m1 -> 1 <= d2 ->
  days_before_month y m1 + d1 < days_before_month y m2 + d2.
Proof.
  intros H1 H12 H2.
  unfold days_before_month, days_in_month, DAYS_BEFORE_MONTH, DAYS_IN_MONTH.
  month_cases m1; month_cases m2; try lia; destruct (is_leap y); lookup_month; lia.
Qed.

End Calendar.

Section Later.

Lemma toordinal_later a b :
  datetime_valid a = true -> datetime_valid b = true ->
  lex_ltb [year a; month a; day a] [year b; month b; day b] = true ->
  toordinal a < toordinal b.
Proof.
  unfold datetime_valid, toordinal. cbn [lex_ltb].
  intros Ha Hb Hlt. unbool Ha. unbool Hb. unbool Hlt.
  destruct Hlt as [Hy|[Hy [Hm|[Hm [Hd|[_ Hf]]]]]]; [| | |discriminate Hf].
  - pose proof (day_of_year_bounds (year a) (month a) (day a)) as Ba.
    pose proof (day_of_year_bounds (year b) (month b) (day b)) as Bb.
    pose proof (days_before_year_succ (year a)) as Hs.
    pose proof (days_before_year_mono (year a + 1) (year b)) as Hmono.
    lia.
  - rewrite Hy in *.
    pose proof (day_of_year_mono (year b) (month a) (day a) (month b) (day b)) as Hmono.
    lia.
  - rewrite Hy, Hm. lia.
Qed.

(** A naive datetime that compares greater lies a negative time back. *)
Lemma later_is_negative_elapsed now d :
  datetime_valid now = true -> datetime_valid d = true ->
  datetime_ltb now d = true -> elapsed now d < 0.
Proof.
  intros Hn Hd Hlt.
  assert (lex_ltb [year now; month now; day now] [year d; month d; day d] = true
          \/ (toordinal now = toordinal d
              /\ lex_ltb [hour now; minute now; second now; microsecond now]
                         [hour d; minute d; second d; microsecond d] = true)) as Hcase.
  { unfold datetime_ltb in Hlt. cbn [lex_ltb] in *. unfold toordinal.
    destruct (Z.ltb_spec (year now) (year d)); [by left|].
    destruct (Z.eqb_spec (year now) (year d)) as [->|]; [|done].
    destruct (Z.ltb_spec (month now) (month d)); [by left|].
    destruct (Z.eqb_spec (month now) (month d)) as [->|]; [|done].
    destruct (Z.ltb_spec (day now) (day d)); [by left|].
    destruct (Z.eqb_spec (day now) (day d)) as [->|]; [|done].
    right. split; [done|]. simpl in Hlt. exact Hlt. }
  unfold elapsed. destruct Hcase as [Hdate|[Hsame Htime]].
  - pose proof (toordinal_later now d Hn Hd Hdate).
    unfold datetime_valid in Hn, Hd. unbool Hn. unbool Hd. lia.
  - rewrite Hsame. cbn [lex_ltb] in Htime.
    unfold datetime_valid in Hn, Hd. unbool Hn. unbool Hd. unbool Htime. lia.
Qed.

End Later.

(** ** dict *)

Section DictFacts.
Context {V : Type}.
Implicit Types (d : dict V) (k : string) (v : V).

Lemma dict_get_set_eq k v d : dict_get k (dict_set k v d) = Some v.
Proof.
  induction d as [|[k' v'] d IH]; simpl.
  - by rewrite String.eqb_refl.
  - destruct (String.eqb k k') eqn:E; simpl.
    + by rewrite String.eqb_refl.
    + by rewrite E.
Qed.

Lemma dict_get_set_ne k k' v d :
  k <> k' -> dict_get k' (dict_set k v d) = dict_get k' d.
Proof.
  intros Hne. induction d as [|[k0 v0] d IH]; simpl.
  - destruct (String.eqb k' k) eqn:E; [|done].
    apply String.eqb_eq in E. congruence.
  - destruct (String.eqb k k0) eqn:E; simpl.
    + apply String.eqb_eq in E. subst k0.
      destruct (String.eqb k' k) eqn:E'; [|done].
      apply String.eqb_eq in E'. congruence.
    + by rewrite IH.
Qed.

Lemma dict_get_In k v d : dict_get k d = Some v -> In (k, v) d.
Proof.
  induction d as [|[k' v'] d IH]; simpl; [done|].
  destruct (String.eqb k k') eqn:E.
  - apply String.eqb_eq in E. intros [= ->]. left. by subst.
  - auto.
Qed.

Lemma dict_get_None k d : dict_get k d = None <-> ~ In k (dict_keys d).
Proof.
  induction d as [|[k' v'] d IH]; simpl; [tauto|].
  destruct (String.eqb k k') eqn:E.
  - apply String.eqb_eq in E. subst. split; [done|]. intros Hn. destruct Hn. by left.
  - apply String.eqb_neq in E. rewrite IH. split.
    + intros Hn [Heq|Hin]; [congruence|tauto].
    + tauto.
Qed.

Lemma In_dict_get k v d : NoDup (dict_keys d) -> In (k, v) d -> dict_get k d = Some v.
Proof.
  induction d as [|[k' v'] d IH]; simpl; [done|].
  intros Hnd Hin. apply NoDup_cons in Hnd as [Hk Hnd].
  destruct Hin as [[= -> ->]|Hin].
  - by rewrite String.eqb_refl.
  - destruct (String.eqb k k') eqn:E.
    + apply String.eqb_eq in E. subst k'. destruct Hk.
      apply (in_map fst) in Hin. by apply list_elem_of_In.
    + auto.
Qed.

Lemma dict_keys_set k v d :
  dict_keys (dict_set k v d)
  = if dict_contains k d then dict_keys d else dict_keys d ++ [k].
Proof.
  unfold dict_contains. induction d as [|[k' v'] d IH]; simpl; [done|].
  destruct (String.eqb k k') eqn:E; simpl.
  - apply String.eqb_eq in E. by subst.
  - rewrite IH. by destruct (dict_get k d).
Qed.

Lemma dict_set_fresh k v d : dict_get k d = None -> dict_set k v d = d ++ [(k, v)].
Proof.
  induction d as [|[k' v'] d IH]; simpl; [done|].
  destruct (String.eqb k k'); [done|]. intros Hn. by rewrite IH.
Qed.

Lemma dict_set_NoDup k v d : NoDup (dict_keys d) -> NoDup (dict_keys (dict_set k v d)).
Proof.
  intros Hnd. rewrite dict_keys_set. unfold dict_contains.
  destruct (dict_get k d) eqn:E; [done|].
  apply NoDup_app. split; [done|]. split; [|apply NoDup_singleton].
  intros x Hx Hx'. apply list_elem_of_In in Hx.
  apply list_elem_of_singleton in Hx'. subst x.
  by apply dict_get_None in E.
Qed.

Lemma nodupb_NoDup (l : list string) : nodupb l = true -> NoDup l.
Proof.
  induction l as [|k l IH]; simpl; [constructor|].
  intros [Hk Hl]%andb_true_iff. constructor; [|auto].
  intros Hin. apply negb_true_iff in Hk.
  assert (existsb (String.eqb k) l = true); [|congruence].
  apply existsb_exists. exists k. split; [by apply list_elem_of_In|apply String.eqb_refl].
Qed.

End DictFacts.

(** ** Reading the snapshot *)

Section ReaderFacts.
Context `{Runtime}.

(** The two files have the same [try] body. *)
Lemma read_agents_same : SubctlPy.read_agents = Orchestrator.read_agents.
Proof. reflexivity. Qed.

Lemma client_call_frame {A} (op : M A) w r w' :
  (forall u r' u', op u = (r', u') -> u' = u) ->
  client_call op w = (r, w') ->
  redis w' = redis w /\ console w' = console w /\ clock w' = clock w
  /\ faults w' = tl (faults w).
Proof.
  intros Hop. unfold client_call.
  destruct (faults w) as [|[e|] plan] eqn:E.
  - intros Hw. apply Hop in Hw. subst w'. by rewrite E.
  - intros [= <- <-]. done.
  - intros Hw. apply Hop in Hw. subst w'. done.
Qed.

Lemma redis_get_frame key w r w' :
  redis_get key w = (r, w') ->
  redis w' = redis w /\ console w' = console w /\ clock w' = clock w
  /\ faults w' = tl (faults w).
Proof.
  apply client_call_frame. intros u r' u'.
  destruct (redis u !! key) as [[[text|items] t]|]; by intros [= _ <-].
Qed.

Lemma read_agents_eq w :
  Orchestrator.read_agents w
  = match redis_get "subctl:agents" w with
    | (Ok (Some text), w1) =>
        if str_truthy text then
          (match decode text with Ok res => Ok (Some res) | Raise e => Raise e end, w1)
        else (Ok None, w1)
    | (Ok None, w1) => (Ok None, w1)
    | (Raise e, w1) => (Raise e, w1)
    end.
Proof.
  unfold Orchestrator.read_agents, bind, decode.
  destruct (redis_get "subctl:agents" w) as [[[text|]|e] w1]; [|done..].
  destruct (str_truthy text); [|done].
  unfold lift, ret, rbind.
  destruct (json_loads text) as [raw|e]; [|done].
  destruct (py_items raw) as [items|e]; [|done].
  by destruct (Orchestrator.decode_items items []).
Qed.

(** Reading prints nothing and writes nothing: it uses up one planned call. *)
Lemma read_agents_frame w r w' :
  Orchestrator.read_agents w = (r, w') ->
  redis w' = redis w /\ console w' = console w /\ clock w' = clock w
  /\ faults w' = tl (faults w).
Proof.
  rewrite read_agents_eq.
  destruct (redis_get "subctl:agents" w) as [[[text|]|e] w1] eqn:E;
    apply redis_get_frame in E; [destruct (str_truthy text)|..];
    by intros [= _ <-].
Qed.

Lemma get_all_agents_eq w :
  Orchestrator.get_all_agents w
  = match Orchestrator.read_agents w with
    | (Ok (Some res), w1) => (Ok res, w1)
    | (Ok None, w1) => (Ok [], w1)
    | (Raise e, w1) =>
        (Ok [], with_console (console w1 ++ [Orchestrator.read_error e]) w1)
    end.
Proof.
  unfold Orchestrator.get_all_agents, bind, try_except.
  by destruct (Orchestrator.read_agents w) as [[[res|]|e] w1].
Qed.

Lemma subctl_py_get_all_agents_eq self w :
  SubctlPy.get_all_agents self w
  = match Orchestrator.read_agents w with
    | (Ok (Some res), w1) => (Ok res, w1)
    | (Ok None, w1) | (Raise _, w1) => (Ok (SubctlPy.agents self), w1)
    end.
Proof.
  unfold SubctlPy.get_all_agents, bind, try_except. rewrite read_agents_same.
  by destruct (Orchestrator.read_agents w) as [[[res|]|e] w1].
Qed.

(** [get_all_agents] always returns a mapping. *)
Lemma get_all_agents_returns w :
  exists S w', Orchestrator.get_all_agents w = (Ok S, w').
Proof.
  rewrite get_all_agents_eq.
  destruct (Orchestrator.read_agents w) as [[[res|]|e] w1]; eauto.
Qed.

(** The kinds of failure: the client call fails, the text is no JSON, the
    JSON is no object, an entry does not convert. *)
Lemma read_agents_call_fails w e plan :
  faults w = Some e :: plan ->
  Orchestrator.read_agents w = (Raise e, with_faults plan w).
Proof.
  intros E. rewrite read_agents_eq. unfold redis_get, client_call. by rewrite E.
Qed.

Lemma read_agents_decode_fails w text w1 e :
  redis_get "subctl:agents" w = (Ok (Some text), w1) ->
  str_truthy text = true ->
  decode text = Raise e ->
  Orchestrator.read_agents w = (Raise e, w1).
Proof. intros E Ht Hd. by rewrite read_agents_eq, E, Ht, Hd. Qed.

(** In [orchestrator.py] a failed read returns the empty mapping and prints
    one line. *)
Lemma get_all_agents_failure_reported w e w1 :
  Orchestrator.read_agents w = (Raise e, w1) ->
  exists w', Orchestrator.get_all_agents w = (Ok [], w')
             /\ console w' = console w ++ [Orchestrator.read_error e]
             /\ redis w' = redis w.
Proof.
  intros E. rewrite get_all_agents_eq, E. eexists. split; [done|].
  apply read_agents_frame in E as (Hr & Hc & _). simpl. by rewrite Hc, Hr.
Qed.

End ReaderFacts.

(** ** The two readers side by side *)


(** C2.  In [src/subctl.py] a failed read (the client call fails, or the text
    does not decode) makes [get_all_agents] return the cache, but it prints
    nothing: the handler is [except: pass].  The failure is silent there,
    whereas [orchestrator.py] prints one line
    ([get_all_agents_failure_reported]). *)
Theorem subctl_py_read_failure_is_silent `{Runtime}
    (self : SubctlPy.SubCtlOrchestrator) (w : world) (e : exc_class) (w1 : world) :
  SubctlPy.read_agents w = (Raise e, w1) ->
  SubctlPy.get_all_agents self w = (Ok (SubctlPy.agents self), w1)
  /\ console w1 = console w.
Proof.
  rewrite read_agents_same. intros E.
  rewrite subctl_py_get_all_agents_eq, E. split; [done|].
  by apply read_agents_frame in E as (_ & Hc & _).
Qed.

Section StoreDown.
#[local] Existing Instance Sample.runtime.

Lemma subctl_py_read_failure_is_silent_witness :
  SubctlPy.get_all_agents SubctlPy.init Demo.store_down
  = (Ok [], with_faults [] Demo.store_down)
  /\ console (with_faults [] Demo.store_down) = console Demo.store_down.
Proof.
  exact (subctl_py_read_failure_is_silent SubctlPy.init Demo.store_down
           ConnectionError (with_faults [] Demo.store_down) eq_refl).
Defined.

(** With the store down, [orchestrator.py] prints its one line and
    [subctl.py] none. *)
Example store_down_diagnostics :
  console (snd (Orchestrator.get_all_agents Demo.store_down))
  = [Orchestrator.read_error ConnectionError]
  /\ console (snd (SubctlPy.get_all_agents SubctlPy.init Demo.store_down)) = [].
Proof. split; reflexivity. Qed.

End StoreDown.

(** ** Recording an event *)

(** C3.  In [src/subctl/orchestrator.py] [record_agent_event] never reaches
    the store: [asdict] is not imported there, so evaluating the argument of
    [lpush] raises [NameError]; the handler catches it and prints one line.
    Nothing is pushed and no expiry is set, whatever the label, the event and
    the state of the store. *)
Theorem record_agent_event_unbound_asdict `{Runtime}
    (agent_label : string) (event : AgentEvent) (w : world) :
  Orchestrator.record_agent_event agent_label event w
  = (Ok tt, with_console (console w ++ [Orchestrator.record_error NameError]) w).
Proof. reflexivity. Qed.

Section RecorderFacts.
Context `{Runtime}.

Lemma record_agent_event_store_untouched agent_label event w :
  redis (snd (Orchestrator.record_agent_event agent_label event w)) = redis w
  /\ faults (snd (Orchestrator.record_agent_event agent_label event w)) = faults w.
Proof. split; reflexivity. Qed.

(** [src/subctl.py] imports [asdict], but [json.dumps] rejects an event whose
    fields hold a datetime, as the annotated [timestamp] does: again nothing
    is written. *)
Lemma subctl_py_record_agent_event_unserializable self agent_label event w :
  json_serializable (asdict event) = false ->
  SubctlPy.record_agent_event self agent_label event w
  = (Ok tt, with_console (console w ++ [SubctlPy.record_error TypeError]) w).
Proof.
  intros E. unfold SubctlPy.record_agent_event, try_except, bind, lift, json_dumps.
  by rewrite E.
Qed.

Lemma datetime_timestamp_unserializable event d :
  timestamp event = VDatetime d -> json_serializable (asdict event) = false.
Proof.
  intros E. unfold asdict. simpl. rewrite E. simpl.
  by rewrite !andb_false_r.
Qed.

(** When the event does serialize and the store answers, [subctl.py] does
    what the contract says: the text becomes the head of the list and the key
    expires in 3600 seconds. *)
Lemma subctl_py_record_agent_event_pushes self agent_label event w old t :
  json_serializable (asdict event) = true ->
  faults w = [] ->
  redis w !! ("subctl:events:" +:+ agent_label) = Some (mk_entry (RList old) t) ->
  exists w',
    SubctlPy.record_agent_event self agent_label event w = (Ok tt, w')
    /\ redis w' !! ("subctl:events:" +:+ agent_label)
       = Some (mk_entry (RList (json_text (asdict event) :: old)) (Some 3600))
    /\ console w' = console w.
Proof.
  intros Hs Hf Hk.
  unfold SubctlPy.record_agent_event, try_except, bind, lift, json_dumps.
  simpl load_global. cbv iota beta. rewrite Hs.
  unfold redis_lpush, redis_expire, client_call. rewrite Hf, Hk. simpl.
  rewrite Hf. rewrite lookup_insert_eq. simpl.
  eexists. split; [reflexivity|]. simpl. by rewrite lookup_insert_eq.
Qed.

Lemma subctl_py_record_agent_event_creates self agent_label event w :
  json_serializable (asdict event) = true ->
  faults w = [] ->
  redis w !! ("subctl:events:" +:+ agent_label) = None ->
  exists w',
    SubctlPy.record_agent_event self agent_label event w = (Ok tt, w')
    /\ redis w' !! ("subctl:events:" +:+ agent_label)
       = Some (mk_entry (RList [json_text (asdict event)]) (Some 3600))
    /\ console w' = console w.
Proof.
  intros Hs Hf Hk.
  unfold SubctlPy.record_agent_event, try_except, bind, lift, json_dumps.
  simpl load_global. cbv iota beta. rewrite Hs.
  unfold redis_lpush, redis_expire, client_call. rewrite Hf, Hk. simpl.
  rewrite Hf. rewrite lookup_insert_eq. simpl.
  eexists. split; [reflexivity|]. simpl. by rewrite lookup_insert_eq.
Qed.

End RecorderFacts.

Section RecordStarted.
#[local] Existing Instance Sample.runtime.

(** The event of the example, recorded through either file: one line of
    diagnostic, and the key of the label is still absent. *)
Example started_is_not_recorded :
  let w1 := snd (Orchestrator.record_agent_event "x" Demo.started Demo.fleet) in
  let w2 := snd (SubctlPy.record_agent_event SubctlPy.init "x" Demo.started Demo.fleet) in
  redis w1 !! "subctl:events:x" = None
  /\ console w1 = [Orchestrator.record_error NameError]
  /\ redis w2 !! "subctl:events:x" = None
  /\ console w2 = [SubctlPy.record_error TypeError].
Proof. vm_compute. done. Qed.

(** With its timestamp already text, [subctl.py] does record it. *)
Example started_as_text_is_recorded :
  let w := snd (SubctlPy.record_agent_event SubctlPy.init "x" Demo.started_as_text
                  Demo.fleet) in
  redis w !! "subctl:events:x"
  = Some (mk_entry (RList [json_text (asdict Demo.started_as_text)]) (Some 3600))
  /\ console w = [].
Proof. vm_compute. done. Qed.

End RecordStarted.

(** ** The liveness filter *)

Section FilterFacts.
Context `{Runtime}.

Lemma age_within td T :
  Qle_bool (total_seconds td / inject_Z 60) (inject_Z T) = true
  <-> td <= timedelta_minutes T.
Proof.
  rewrite Qle_bool_iff. unfold total_seconds, timedelta_minutes, Qle, Qdiv, Qmult, Qinv.
  simpl. lia.
Qed.

Lemma active_loop_sound now T items acc m :
  Orchestrator.active_loop now T items acc = Ok m ->
  forall k v, dict_get k m = Some v ->
              dict_get k acc = Some v \/ (In (k, v) items /\ recent now T v).
Proof.
  revert acc. induction items as [|[lbl agent] rest IH]; intros acc; simpl.
  - intros [= <-]. auto.
  - destruct agent as [a|v0].
    + unfold Orchestrator.age_minutes.
      destruct (last_update a) as [| | | | | | |d] eqn:Ed; try done.
      destruct (datetime_sub now d) as [td|e] eqn:Etd; [simpl|done].
      destruct (Qle_bool _ _) eqn:Eq.
      * intros Hm k v Hk. destruct (IH _ Hm k v Hk) as [Hacc|[Hin Hr]].
        -- destruct (String.eqb lbl k) eqn:Ek.
           ++ apply String.eqb_eq in Ek. subst k.
              rewrite dict_get_set_eq in Hacc. injection Hacc as <-.
              right. split; [by left|]. exists a, d, td.
              by rewrite <- age_within.
           ++ apply String.eqb_neq in Ek.
              rewrite dict_get_set_ne in Hacc by done. auto.
        -- right. split; [by right|done].
      * intros Hm k v Hk. destruct (IH _ Hm k v Hk) as [Hacc|[Hin Hr]]; [auto|].
        right. split; [by right|done].
    + intros Hm k v Hk. destruct (IH _ Hm k v Hk) as [Hacc|[Hin Hr]]; [auto|].
      right. split; [by right|done].
Qed.

Lemma active_loop_total now T items acc :
  tzinfo now = None -> naive_timestamps items = true ->
  exists m, Orchestrator.active_loop now T items acc = Ok m.
Proof.
  intros Hnow. revert acc. induction items as [|[lbl agent] rest IH]; intros acc; simpl.
  - eauto.
  - intros [Hhd Htl]%andb_true_iff. destruct agent as [a|v0]; [|by apply IH].
    unfold Orchestrator.age_minutes. simpl in Hhd.
    destruct (last_update a) as [| | | | | | |d]; try done.
    unfold datetime_sub. rewrite Hnow.
    destruct (tzinfo d); [done|]. simpl.
    destruct (Qle_bool _ _); by apply IH.
Qed.

Lemma active_loop_keeps now T items acc m k :
  Orchestrator.active_loop now T items acc = Ok m ->
  ~ In k (dict_keys items) -> dict_get k m = dict_get k acc.
Proof.
  revert acc. induction items as [|[lbl agent] rest IH]; intros acc; simpl.
  - by intros [= <-].
  - intros Hm Hk.
    assert (lbl <> k /\ ~ In k (dict_keys rest)) as [Hne Hrest] by tauto.
    destruct agent as [a|v0]; [|by apply IH].
    destruct (Orchestrator.age_minutes now a) as [age|e]; [simpl in Hm|done].
    destruct (Qle_bool _ _).
    + rewrite (IH _ Hm Hrest). by apply dict_get_set_ne.
    + by apply IH.
Qed.

Lemma active_loop_complete now T items acc m k a d td :
  Orchestrator.active_loop now T items acc = Ok m ->
  NoDup (dict_keys items) -> In (k, Agent a) items ->
  last_update a = VDatetime d -> datetime_sub now d = Ok td ->
  td <= timedelta_minutes T ->
  dict_get k m = Some (Agent a).
Proof.
  revert acc. induction items as [|[lbl agent] rest IH]; intros acc; simpl; [done|].
  intros Hm Hnd Hin Hd Htd Hle. apply NoDup_cons in Hnd as [Hlbl Hnd].
  destruct Hin as [[= -> ->]|Hin].
  - unfold Orchestrator.age_minutes in Hm. rewrite Hd, Htd in Hm. simpl in Hm.
    apply age_within in Hle. rewrite Hle in Hm.
    rewrite (active_loop_keeps _ _ _ _ _ _ Hm).
    + apply dict_get_set_eq.
    + intros Hk. apply Hlbl. by apply list_elem_of_In.
  - destruct agent as [a0|v0]; [|by eapply IH].
    destruct (Orchestrator.age_minutes now a0) as [age|e]; [simpl in Hm|done].
    destruct (Qle_bool _ _); by eapply IH.
Qed.

(** The loop raises as soon as a record carries something else than a naive
    datetime. *)
Lemma active_loop_raises now T items acc :
  tzinfo now = None -> naive_timestamps items = false ->
  Orchestrator.active_loop now T items acc = Raise TypeError.
Proof.
  intros Hnow. revert acc. induction items as [|[lbl agent] rest IH]; intros acc; simpl.
  - done.
  - intros Hbad. destruct agent as [a|v0]; [|by apply IH].
    unfold Orchestrator.age_minutes. simpl in Hbad.
    destruct (last_update a) as [| | | | | | |d]; try done.
    unfold datetime_sub. rewrite Hnow.
    destruct (tzinfo d); [done|]. simpl in *.
    destruct (Qle_bool _ _); by apply IH.
Qed.

Lemma decode_items_NoDup items acc S :
  NoDup (dict_keys acc) -> Orchestrator.decode_items items acc = Ok S ->
  NoDup (dict_keys S).
Proof.
  revert acc. induction items as [|[k v] rest IH]; intros acc Hacc; simpl.
  - by intros [= <-].
  - destruct (Orchestrator.convert v) as [x|e]; [simpl|done].
    apply IH. by apply dict_set_NoDup.
Qed.

Lemma decode_NoDup text S : decode text = Ok S -> NoDup (dict_keys S).
Proof.
  unfold decode. destruct (json_loads text) as [raw|]; [simpl|done].
  destruct (py_items raw) as [items|]; [simpl|done].
  apply decode_items_NoDup. constructor.
Qed.

(** The mapping [get_all_agents] returns has each label once, and the call
    leaves the clock alone. *)
Lemma get_all_agents_NoDup w S w1 :
  Orchestrator.get_all_agents w = (Ok S, w1) ->
  NoDup (dict_keys S) /\ clock w1 = clock w.
Proof.
  rewrite get_all_agents_eq.
  destruct (Orchestrator.read_agents w) as [[[res|]|e] w0] eqn:E.
  - intros [= -> ->]. split; [|by apply read_agents_frame in E as (_ & _ & ? & _)].
    rewrite read_agents_eq in E.
    destruct (redis_get "subctl:agents" w) as [[[text|]|e] w2]; [|done..].
    destruct (str_truthy text); [|done].
    destruct (decode text) as [res'|] eqn:Ed; [|done].
    injection E as -> _. by eapply decode_NoDup.
  - intros [= <- <-]. split; [constructor|by apply read_agents_frame in E as (_ & _ & ? & _)].
  - intros [= <- <-]. split; [constructor|by apply read_agents_frame in E as (_ & _ & ? & _)].
Qed.

Lemma get_active_agents_eq max_age_minutes w :
  Orchestrator.get_active_agents max_age_minutes w
  = match Orchestrator.get_all_agents w with
    | (Ok snap, w1) =>
        (Orchestrator.active_loop (local_now w1) (default 10 max_age_minutes) snap [], w1)
    | (Raise e, w1) => (Raise e, w1)
    end.
Proof.
  unfold Orchestrator.get_active_agents, bind.
  by destruct (Orchestrator.get_all_agents w) as [[snap|e] w1].
Qed.

Lemma local_now_clock w w1 : clock w1 = clock w -> local_now w1 = local_now w.
Proof. unfold local_now. by intros ->. Qed.

End FilterFacts.


Section FleetAtNoon.
#[local] Existing Instance Sample.runtime.

Example fleet_decodes :
  Orchestrator.get_all_agents Demo.fleet = (Ok Demo.fleet_snapshot, Demo.fleet).
Proof. vm_compute. reflexivity. Qed.

(** With the default threshold: [alpha] (5 minutes old) and [gamma] (half an
    hour ahead) are active, [beta] (15 minutes old) and the note are not. *)
Example fleet_active :
  fst (Orchestrator.get_active_agents None Demo.fleet)
  = Ok [("alpha", Agent (Demo.agent_record "alpha" (Demo.at_time 11 55) (VInt 1200)));
        ("gamma", Agent (Demo.agent_record "gamma" (Demo.at_time 12 30) (VInt 5)))].
Proof. vm_compute. reflexivity. Qed.


End FleetAtNoon.

(** A record of negative age is in the active set for every threshold that
    is not negative. *)
Lemma negative_age_is_active `{Runtime}
    (w : world) (snapshot : dict agent_value) (w1 : world) (max_age_minutes : option Z)
    (lbl : string) (a : AgentInfo) (d : datetime) :
  Orchestrator.get_all_agents w = (Ok snapshot, w1) ->
  naive_timestamps snapshot = true ->
  dict_get lbl snapshot = Some (Agent a) ->
  last_update a = VDatetime d ->
  elapsed (local_now w) d < 0 ->
  0 <= default 10 max_age_minutes ->
  exists m,
    Orchestrator.get_active_agents max_age_minutes w = (Ok m, w1)
    /\ dict_get lbl m = Some (Agent a).
Proof.
  intros Hall Hnaive Hlbl Hd Hfuture Hmax.
  destruct (get_all_agents_NoDup _ _ _ Hall) as [Hnd Hclock].
  rewrite get_active_agents_eq, Hall, (local_now_clock _ _ Hclock).
  destruct (active_loop_total (local_now w) (default 10 max_age_minutes)
              snapshot [] eq_refl Hnaive) as [m Hm].
  exists m. split; [by rewrite Hm|].
  apply dict_get_In in Hlbl as Hin.
  assert (tzinfo d = None) as Htz.
  { unfold naive_timestamps in Hnaive. rewrite forallb_forall in Hnaive.
    specialize (Hnaive _ Hin). simpl in Hnaive. rewrite Hd in Hnaive.
    by destruct (tzinfo d). }
  eapply active_loop_complete; [exact Hm|done|exact Hin|exact Hd| |].
  - unfold datetime_sub. simpl. by rewrite Htz.
  - unfold timedelta_minutes. lia.
Qed.


Section FleetAhead.
#[local] Existing Instance Sample.runtime.


Example fleet_active_threshold_0 :
  fst (Orchestrator.get_active_agents (Some 0) Demo.fleet)
  = Ok [("gamma", Agent (Demo.agent_record "gamma" (Demo.at_time 12 30) (VInt 5)))].
Proof. vm_compute. reflexivity. Qed.

(** A timestamp with a UTC offset does not subtract from the naive clock:
    the whole call raises. *)
Example aware_timestamp_raises :
  fst (Orchestrator.get_active_agents None (Demo.world_with Demo.aware_text []))
  = Raise TypeError.
Proof. vm_compute. reflexivity. Qed.

End FleetAhead.

(** ** Inspecting one agent *)

Section InspectFacts.
Context `{Runtime}.

Lemma get_agent_info_eq agent_label w :
  Orchestrator.get_agent_info agent_label w
  = match Orchestrator.get_all_agents w with
    | (Ok snap, w1) =>
        (Ok (match dict_get agent_label snap with
             | Some v => v
             | None => Other VNone
             end), w1)
    | (Raise e, w1) => (Raise e, w1)
    end.
Proof.
  unfold Orchestrator.get_agent_info, bind.
  destruct (Orchestrator.get_all_agents w) as [[snap|e] w1]; [|done].
  by destruct (dict_get agent_label snap).
Qed.

End InspectFacts.


Section FleetInspected.
#[local] Existing Instance Sample.runtime.


Example beta_is_stale :
  exists m, fst (Orchestrator.get_active_agents None Demo.fleet) = Ok m
            /\ dict_get "beta" m = None.
Proof. eexists. split; [vm_compute; reflexivity|reflexivity]. Qed.

Example beta_inspected :
  console (snd (Cli.inspect "beta" false false false false Demo.fleet))
  = ["[bold]Agent: beta[/bold]"; "Status: working"; "Tokens: 3,400";
     "Package Compliance: 90.0%"; "Last Update: 2024-01-01 11:45:00"].
Proof. vm_compute. reflexivity. Qed.

End FleetInspected.

(** ** The compliance cell *)

Section FloatOrder.

(** The two thresholds as binary64 values. *)
Lemma Prim2SF_0_8 : Prim2SF 0.8 = S754_finite false 7205759403792794 (-53).
Proof. reflexivity. Qed.
Lemma Prim2SF_0_95 : Prim2SF 0.95 = S754_finite false 8556839292003942 (-53).
Proof. reflexivity. Qed.

(** [Pos.compare_cont Eq] is the comparison of the two numbers. *)
Lemma compare_cont_cases (p q : positive) :
  (Pos.compare_cont Eq p q = Lt /\ Pos.compare_cont Eq q p = Gt /\ (p < q)%positive)
  \/ (Pos.compare_cont Eq p q = Eq /\ Pos.compare_cont Eq q p = Eq /\ p = q)
  \/ (Pos.compare_cont Eq p q = Gt /\ Pos.compare_cont Eq q p = Lt /\ (q < p)%positive).
Proof.
  pose proof (Pos.compare_spec p q) as Hs.
  pose proof (Pos.compare_antisym p q) as Ha.
  unfold Pos.compare in *. destruct Hs as [Hs|Hs|Hs]; rewrite Ha; auto.
Qed.

(** A positive finite [c1] is at most [f]; then [f] is not below any positive
    finite [c0] of the same exponent and a mantissa that is not larger. *)
Lemma SFleb_not_SFltb (c0 c1 : positive) (e0 : Z) (f : spec_float) :
  (c0 <= c1)%positive ->
  SFleb (S754_finite false c1 e0) f = true ->
  SFltb f (S754_finite false c0 e0) = false.
Proof.
  intros Hc. unfold SFleb, SFltb.
  destruct f as [s|s| |s m e]; cbn [SFcompare].
  - done.
  - by destruct s.
  - done.
  - destruct s; [done|].
    rewrite (Z.compare_antisym e e0).
    destruct (e ?= e0); cbn [CompOpp]; try done.
    destruct (compare_cont_cases m c1) as [(E1 & E2 & H1)|[(E1 & E2 & H1)|(E1 & E2 & H1)]];
      rewrite E2; [done| |];
      (destruct (compare_cont_cases m c0) as [(E3 & _ & H2)|[(E3 & _ & H2)|(E3 & _ & H2)]];
       rewrite E3; [lia|done|done]).
Qed.

Lemma not_below_0_8 (x : float) :
  PrimFloat.leb 0.8 x = true -> PrimFloat.ltb x 0.8 = false.
Proof.
  rewrite FloatAxioms.leb_spec, FloatAxioms.ltb_spec, Prim2SF_0_8.
  apply SFleb_not_SFltb. reflexivity.
Qed.

Lemma not_below_0_95 (x : float) :
  PrimFloat.leb 0.95 x = true ->
  PrimFloat.ltb x 0.8 = false /\ PrimFloat.ltb x 0.95 = false.
Proof.
  rewrite FloatAxioms.leb_spec, !FloatAxioms.ltb_spec, Prim2SF_0_8, Prim2SF_0_95.
  intros Hle. split; revert Hle; apply SFleb_not_SFltb; [|reflexivity].
  by vm_compute.
Qed.

End FloatOrder.

(** C7.  The Package Compliance cell of a record whose compliance is the
    float [x] is the percentage [text] wrapped in red when [x < 0.8], wrapped
    in yellow when [0.8 <= x < 0.95], and bare when [x >= 0.95], in [cli.py]
    and in [subctl.py] alike; so 0.5 is severe, 0.9 a warning and 0.99
    neutral. *)
Theorem compliance_cell_bands `{Runtime} (a : AgentInfo) (x : float) (text : string) :
  package_compliance a = VFloat x ->
  format_spec ".1%" (VFloat x) = Ok text ->
  SubctlPy.compliance_text (Agent a) = Cli.compliance_text (Agent a)
  /\ (PrimFloat.ltb x 0.8 = true ->
      Cli.compliance_text (Agent a) = Ok ("[red]" +:+ text +:+ "[/red]"))
  /\ (PrimFloat.leb 0.8 x = true -> PrimFloat.ltb x 0.95 = true ->
      Cli.compliance_text (Agent a) = Ok ("[yellow]" +:+ text +:+ "[/yellow]"))
  /\ (PrimFloat.leb 0.95 x = true -> Cli.compliance_text (Agent a) = Ok text)
  /\ (x = 0.5%float ->
      Cli.compliance_text (Agent a) = Ok ("[red]" +:+ text +:+ "[/red]"))
  /\ (x = 0.9%float ->
      Cli.compliance_text (Agent a) = Ok ("[yellow]" +:+ text +:+ "[/yellow]"))
  /\ (x = 0.99%float -> Cli.compliance_text (Agent a) = Ok text).
Proof.
  intros Hpc Htext.
  assert (Cli.compliance_text (Agent a)
          = Ok (if PrimFloat.ltb x 0.8 then "[red]" +:+ text +:+ "[/red]"
                else if PrimFloat.ltb x 0.95 then "[yellow]" +:+ text +:+ "[/yellow]"
                else text)) as Hcell.
  { unfold Cli.compliance_text, attr, rbind, py_lt_float. rewrite Hpc, Htext.
    by destruct (PrimFloat.ltb x 0.8), (PrimFloat.ltb x 0.95). }
  split; [reflexivity|]. rewrite Hcell. split; [|split; [|split]].
  - by intros ->.
  - intros Hge ->. by rewrite (not_below_0_8 x Hge).
  - intros Hge. by destruct (not_below_0_95 x Hge) as [-> ->].
  - split; [|split]; by intros ->.
Qed.

(** An integer compliance is compared exactly: 0 and below is severe, 1 and
    above neutral. *)
Lemma compliance_cell_of_int `{Runtime} (a : AgentInfo) (n : Z) (text : string) :
  package_compliance a = VInt n ->
  format_spec ".1%" (VInt n) = Ok text ->
  Cli.compliance_text (Agent a)
  = Ok (if n <=? 0 then "[red]" +:+ text +:+ "[/red]" else text).
Proof.
  intros Hpc Htext. unfold Cli.compliance_text, attr, rbind, py_lt_float.
  rewrite Hpc, Htext. unfold Z_ltb_float. rewrite Prim2SF_0_8, Prim2SF_0_95.
  cbv beta iota. change (0 <=? -53) with false. cbv iota.
  destruct (Z.leb_spec n 0), (Z.ltb_spec (n * 2 ^ (- -53)) (Z.pos 7205759403792794)),
    (Z.ltb_spec (n * 2 ^ (- -53)) (Z.pos 8556839292003942)); try done;
    change (2 ^ (- -53)) with 9007199254740992 in *; lia.
Qed.

Section CellsRendered.
#[local] Existing Instance Sample.runtime.

Lemma compliance_cell_bands_witness :
  Cli.compliance_text
    (Agent (mk_AgentInfo (VStr "s") (VStr "a") (VStr "main") (VInt 0) (VStr "working")
                         (VDatetime Demo.noon) (VList []) (VFloat 0.5) (VFloat 0)
                         VNone))
  = Ok "[red]50.0%[/red]".
Proof.
  apply (compliance_cell_bands _ 0.5%float "50.0%").
  - reflexivity.
  - vm_compute. reflexivity.
  - reflexivity.
Defined.

Example cells_of_three_records :
  map (fun x => Cli.compliance_text
                  (Agent (mk_AgentInfo VNone VNone VNone VNone VNone VNone VNone
                                       (VFloat x) VNone VNone)))
      [0.5%float; 0.9%float; 0.99%float; 0.8%float; 0.95%float]
  = [Ok "[red]50.0%[/red]"; Ok "[yellow]90.0%[/yellow]"; Ok "99.0%";
     Ok "[yellow]80.0%[/yellow]"; Ok "95.0%"].
Proof. vm_compute. reflexivity. Qed.

End CellsRendered.

(** ** Decoding the blob *)

Section DecodeFacts.
Context `{Runtime}.

Lemma decode_items_keeps items acc snapshot k :
  Orchestrator.decode_items items acc = Ok snapshot ->
  ~ In k (dict_keys items) -> dict_get k snapshot = dict_get k acc.
Proof.
  revert acc. induction items as [|[k0 v0] rest IH]; intros acc; simpl.
  - by intros [= <-].
  - destruct (Orchestrator.convert v0) as [x|e]; [simpl|done].
    intros Hs Hk. rewrite (IH _ Hs) by tauto.
    apply dict_get_set_ne. tauto.
Qed.

(** Every item of the blob is in the result, converted. *)
Lemma decode_items_lookup items acc snapshot k v :
  Orchestrator.decode_items items acc = Ok snapshot ->
  NoDup (dict_keys items) -> dict_get k items = Some v ->
  exists x, Orchestrator.convert v = Ok x /\ dict_get k snapshot = Some x.
Proof.
  revert acc. induction items as [|[k0 v0] rest IH]; intros acc; simpl; [done|].
  destruct (Orchestrator.convert v0) as [x0|e] eqn:Ec; [simpl|done].
  intros Hs Hnd Hk. apply NoDup_cons in Hnd as [Hk0 Hnd].
  destruct (String.eqb k k0) eqn:E.
  - apply String.eqb_eq in E. subst k0. injection Hk as <-.
    exists x0. split; [done|].
    rewrite (decode_items_keeps _ _ _ _ Hs).
    + apply dict_get_set_eq.
    + intros Hin. apply Hk0. by apply list_elem_of_In.
  - by eapply IH.
Qed.

Lemma decode_items_total items acc :
  forallb (fun kv => is_ok (Orchestrator.convert (snd kv))) items = true ->
  exists snapshot, Orchestrator.decode_items items acc = Ok snapshot.
Proof.
  revert acc. induction items as [|[k0 v0] rest IH]; intros acc; simpl; [eauto|].
  intros [Hhd Htl]%andb_true_iff.
  destruct (Orchestrator.convert v0) as [x0|e]; [simpl|done]. by apply IH.
Qed.

(** One entry that does not convert makes the whole loop raise. *)
Lemma decode_items_aborts items acc lbl v e :
  In (lbl, v) items -> Orchestrator.convert v = Raise e ->
  exists e', Orchestrator.decode_items items acc = Raise e'.
Proof.
  revert acc. induction items as [|[k0 v0] rest IH]; intros acc; simpl; [done|].
  intros [[= -> ->]|Hin] Hv.
  - rewrite Hv. simpl. eauto.
  - destruct (Orchestrator.convert v0) as [x0|e0]; simpl; [by apply IH|eauto].
Qed.

Lemma get_all_agents_decoded w text w1 snapshot :
  redis_get "subctl:agents" w = (Ok (Some text), w1) ->
  str_truthy text = true ->
  decode text = Ok snapshot ->
  Orchestrator.get_all_agents w = (Ok snapshot, w1).
Proof.
  intros E Ht Hd. by rewrite get_all_agents_eq, read_agents_eq, E, Ht, Hd.
Qed.

(** The loop passes over every value that is no [AgentInfo]. *)
Lemma active_loop_skips_others now T items acc :
  Orchestrator.active_loop now T items acc
  = Orchestrator.active_loop now T (records_only items) acc.
Proof.
  revert acc. induction items as [|[lbl agent] rest IH]; intros acc; simpl; [done|].
  destruct agent as [a|v]; simpl; [|by apply IH].
  destruct (Orchestrator.age_minutes now a) as [age|e]; [simpl|done].
  destruct (Qle_bool _ _); by apply IH.
Qed.

End DecodeFacts.


Section FleetNote.
#[local] Existing Instance Sample.runtime.


End FleetNote.

(** ** Entries that do not convert *)

Section ConvertFacts.
Context `{Runtime}.

Lemma AgentInfo_init_missing kwargs f :
  In f AgentInfo_fields -> dict_get f kwargs = None ->
  AgentInfo_init kwargs = Raise TypeError.
Proof.
  intros Hf Hnone. unfold AgentInfo_init.
  destruct (forallb _ _); [|done]. unfold kwarg.
  simpl in Hf. destruct Hf as [<-|Hf]; [by rewrite Hnone|].
  destruct (dict_get "session_key" kwargs); [simpl|done].
  destruct Hf as [<-|Hf]; [by rewrite Hnone|].
  destruct (dict_get "label" kwargs); [simpl|done].
  destruct Hf as [<-|Hf]; [by rewrite Hnone|].
  destruct (dict_get "channel" kwargs); [simpl|done].
  destruct Hf as [<-|Hf]; [by rewrite Hnone|].
  destruct (dict_get "total_tokens" kwargs); [simpl|done].
  destruct Hf as [<-|Hf]; [by rewrite Hnone|].
  destruct (dict_get "status" kwargs); [simpl|done].
  destruct Hf as [<-|Hf]; [by rewrite Hnone|].
  destruct (dict_get "last_update" kwargs); [simpl|done].
  destruct Hf as [<-|Hf]; [by rewrite Hnone|].
  destruct (dict_get "assigned_tickets" kwargs); [simpl|done].
  destruct Hf as [<-|Hf]; [by rewrite Hnone|].
  destruct (dict_get "package_compliance" kwargs); [simpl|done].
  destruct Hf as [<-|Hf]; [by rewrite Hnone|].
  destruct (dict_get "custom_code_ratio" kwargs); [simpl|done].
  destruct Hf as [<-|[]]. by rewrite Hnone.
Qed.

Lemma known_field_iff k :
  existsb (String.eqb k) AgentInfo_fields = true <-> In k AgentInfo_fields.
Proof.
  rewrite existsb_exists. split.
  - intros (f & Hf & ->%String.eqb_eq). done.
  - intros Hk. exists k. split; [done|apply String.eqb_refl].
Qed.

Lemma AgentInfo_init_unexpected kwargs k :
  In k (dict_keys kwargs) -> ~ In k AgentInfo_fields ->
  AgentInfo_init kwargs = Raise TypeError.
Proof.
  intros Hk Hnot. unfold AgentInfo_init.
  destruct (forallb _ _) eqn:E; [|done].
  rewrite forallb_forall in E. specialize (E k Hk).
  by apply known_field_iff in E.
Qed.

(** When [AgentInfo_init] raises, a field is missing or a key is unknown. *)
Lemma AgentInfo_init_raises kwargs e :
  AgentInfo_init kwargs = Raise e ->
  missing_field kwargs \/ unexpected_field kwargs.
Proof.
  unfold AgentInfo_init.
  destruct (forallb _ _) eqn:E.
  - intros Hr. left. unfold missing_field, kwarg in *.
    repeat match type of Hr with
           | context [dict_get ?f kwargs] =>
               let E' := fresh in
               destruct (dict_get f kwargs) eqn:E';
               [simpl in Hr|exists f; split; [simpl; tauto|done]]
           end.
    done.
  - intros _. right.
    assert (exists k, In k (dict_keys kwargs)
                      /\ existsb (String.eqb k) AgentInfo_fields = false) as (k & Hk & Hn).
    { clear -E. induction (dict_keys kwargs) as [|k l IH]; simpl in *; [done|].
      apply andb_false_iff in E as [E|E]; [by eauto|].
      destruct (IH E) as (k' & ? & ?). eauto. }
    exists k. split; [done|]. rewrite <- known_field_iff. by rewrite Hn.
Qed.

Lemma dict_set_keeps_keys {V} k (v : V) d k' :
  In k' (dict_keys d) -> In k' (dict_keys (dict_set k v d)).
Proof.
  rewrite dict_keys_set. destruct (dict_contains k d); [done|].
  intros Hk. apply in_or_app. by left.
Qed.

(** What makes one entry of the blob fail: exactly a missing field, an
    unknown key, or a timestamp text the parser rejects.  The type of a
    field's value plays no part. *)
Lemma convert_raises fields :
  (exists e, Orchestrator.convert (VDict fields) = Raise e)
  <-> missing_field fields \/ unexpected_field fields \/ malformed_timestamp fields.
Proof.
  unfold Orchestrator.convert. split.
  - intros [e He].
    destruct (dict_get "last_update" fields) as [[| | | |text| | |]|] eqn:Elu;
      simpl in He;
      try (destruct (AgentInfo_init fields) eqn:Ei; [done|];
           apply AgentInfo_init_raises in Ei; tauto).
    destruct (fromisoformat text) as [d|e'] eqn:Ef; simpl in He.
    + destruct (AgentInfo_init _) eqn:Ei; [done|].
      apply AgentInfo_init_raises in Ei as [(f & Hf & Hnone)|(k & Hk & Hnot)].
      * left. exists f. split; [done|].
        destruct (String.eqb "last_update" f) eqn:Ene.
        -- apply String.eqb_eq in Ene. subst f. by rewrite dict_get_set_eq in Hnone.
        -- apply String.eqb_neq in Ene. by rewrite dict_get_set_ne in Hnone.
      * right. left. exists k. split; [|done].
        rewrite dict_keys_set in Hk. unfold dict_contains in Hk. by rewrite Elu in Hk.
    + right. right. by exists text, e'.
  - intros [(f & Hf & Hnone)|[(k & Hk & Hnot)|(text & e & Hlu & Hf)]].
    + destruct (dict_get "last_update" fields) as [[| | | |text| | |]|] eqn:Elu;
        simpl; try (rewrite (AgentInfo_init_missing fields f); by eauto).
      destruct (fromisoformat text) as [d|e']; simpl; [|by eauto].
      rewrite (AgentInfo_init_missing _ f); [by eauto|done|].
      rewrite dict_get_set_ne; [done|]. intros <-. congruence.
    + destruct (dict_get "last_update" fields) as [[| | | |text| | |]|] eqn:Elu;
        simpl; try (rewrite (AgentInfo_init_unexpected fields k); by eauto).
      destruct (fromisoformat text) as [d|e']; simpl; [|by eauto].
      rewrite (AgentInfo_init_unexpected _ k); [by eauto| |done].
      by apply dict_set_keeps_keys.
    + rewrite Hlu, Hf. simpl. eauto.
Qed.

End ConvertFacts.


Section BadEntries.
#[local] Existing Instance Sample.runtime.


Example misdated_diagnostic :
  console (snd (Orchestrator.get_all_agents (Demo.world_with Demo.misdated_text [])))
  = [Orchestrator.read_error ValueError]
  /\ console (snd (SubctlPy.get_all_agents SubctlPy.init
                     (Demo.world_with Demo.misdated_text []))) = [].
Proof. vm_compute. done. Qed.


Example mistyped_record_is_kept :
  fst (Orchestrator.get_all_agents (Demo.world_with Demo.mistyped_text []))
  = Ok [("alpha", Agent (Demo.agent_record "alpha" (Demo.at_time 11 55)
                           (VStr "many")))].
Proof. vm_compute. reflexivity. Qed.

End BadEntries.

(** ** Well-formed blobs *)

Section RoundTripFacts.
Context `{Runtime}.

Lemma decode_items_keys items acc snapshot :
  NoDup (dict_keys acc ++ dict_keys items) ->
  Orchestrator.decode_items items acc = Ok snapshot ->
  dict_keys snapshot = dict_keys acc ++ dict_keys items.
Proof.
  revert acc. induction items as [|[k v] rest IH]; intros acc; simpl.
  - intros _ [= <-]. by rewrite app_nil_r.
  - intros Hnd. destruct (Orchestrator.convert v) as [x|e]; [simpl|done].
    intros Hs.
    assert (dict_get k acc = None) as Hfresh.
    { apply dict_get_None. intros Hin. apply NoDup_app in Hnd as (_ & Hd & _).
      apply (Hd k); [by apply list_elem_of_In|]. by left. }
    assert (dict_keys (dict_set k x acc) = dict_keys acc ++ [k]) as Hkeys.
    { rewrite dict_keys_set. unfold dict_contains. by rewrite Hfresh. }
    rewrite (IH _ ltac:(by rewrite Hkeys, <- app_assoc) Hs), Hkeys.
    by rewrite <- app_assoc.
Qed.

(** A well-formed entry converts to the record of its fields, with the
    datetime the parser reads in place of the timestamp text. *)
Lemma convert_well_formed fields :
  well_formed_entry (VDict fields) = true ->
  exists a text d,
    Orchestrator.convert (VDict fields) = Ok (Agent a)
    /\ dict_get "session_key" fields = Some (session_key a)
    /\ dict_get "label" fields = Some (label a)
    /\ dict_get "channel" fields = Some (channel a)
    /\ dict_get "total_tokens" fields = Some (total_tokens a)
    /\ dict_get "status" fields = Some (status a)
    /\ dict_get "assigned_tickets" fields = Some (assigned_tickets a)
    /\ dict_get "package_compliance" fields = Some (package_compliance a)
    /\ dict_get "custom_code_ratio" fields = Some (custom_code_ratio a)
    /\ dict_get "consensus_proof" fields = Some (consensus_proof a)
    /\ dict_get "last_update" fields = Some (VStr text)
    /\ fromisoformat text = Ok d
    /\ last_update a = VDatetime d.
Proof.
  unfold well_formed_entry.
  intros [[[[_ Hknown]%andb_true_iff Hall]%andb_true_iff _]%andb_true_iff Hlu]%andb_true_iff.
  destruct (dict_get "last_update" fields) as [[| | | |text| | |]|] eqn:Elu; try done.
  destruct (fromisoformat text) as [d|] eqn:Ef; [|done].
  unfold Orchestrator.convert. rewrite Elu, Ef. simpl.
  unfold AgentInfo_init. rewrite dict_keys_set. unfold dict_contains at 1.
  rewrite Elu, Hknown. unfold kwarg.
  rewrite dict_get_set_eq. rewrite !dict_get_set_ne by done.
  simpl in Hall. unfold dict_contains in Hall.
  destruct (dict_get "session_key" fields); [|done].
  destruct (dict_get "label" fields); [|done].
  destruct (dict_get "channel" fields); [|done].
  destruct (dict_get "total_tokens" fields); [|done].
  destruct (dict_get "status" fields); [|done].
  destruct (dict_get "assigned_tickets" fields); [|by rewrite Elu in Hall].
  destruct (dict_get "package_compliance" fields); [|by rewrite Elu in Hall].
  destruct (dict_get "custom_code_ratio" fields); [|by rewrite Elu in Hall].
  destruct (dict_get "consensus_proof" fields); [|by rewrite Elu in Hall].
  simpl. eexists _, text, d. repeat split. exact Ef.
Qed.

End RoundTripFacts.


Section TwoSpellings.
#[local] Existing Instance Sample.runtime.


(** The two spellings of 11:55 decode to the same record. *)
Example two_spellings_one_snapshot :
  Demo.blob_of Demo.stamp_T_text <> Demo.blob_of Demo.stamp_space_text
  /\ well_formed_blob (Demo.blob_of Demo.stamp_T_text) = true
  /\ well_formed_blob (Demo.blob_of Demo.stamp_space_text) = true
  /\ Orchestrator.decode_items (Demo.blob_of Demo.stamp_T_text) []
     = Orchestrator.decode_items (Demo.blob_of Demo.stamp_space_text) [].
Proof.
  split; [|split; [|split]]; try (vm_compute; reflexivity).
  vm_compute. intros Heq. discriminate Heq.
Qed.


End TwoSpellings.

(** * Further properties *)

(** ** The readers, whatever the store answers *)

Section ReaderExtras.
Context `{Runtime}.

Lemma get_all_agents_cases w :
  exists snap w1,
    Orchestrator.get_all_agents w = (Ok snap, w1)
    /\ only_read w w1
    /\ (console w1 = console w
        \/ exists e, console w1 = console w ++ [Orchestrator.read_error e]).
Proof.
  rewrite get_all_agents_eq.
  destruct (Orchestrator.read_agents w) as [[[res|]|e] w1] eqn:E;
    apply read_agents_frame in E as (Hr & Hc & Hk & Hf);
    eexists _, _; (split; [reflexivity|]); (split; [by repeat split|]); simpl; eauto.
  right. exists e. by rewrite Hc.
Qed.

Lemma subctl_py_get_all_agents_cases self w :
  exists snap w1,
    SubctlPy.get_all_agents self w = (Ok snap, w1)
    /\ only_read w w1 /\ console w1 = console w.
Proof.
  rewrite subctl_py_get_all_agents_eq.
  destruct (Orchestrator.read_agents w) as [[[res|]|e] w1] eqn:E;
    apply read_agents_frame in E as (Hr & Hc & Hk & Hf);
    eexists _, _; (split; [reflexivity|]); by repeat split.
Qed.

End ReaderExtras.


(** X2.  A store that has no snapshot key, or holds the empty text under it,
    is no error: both readers return the empty mapping (the cache, in
    [subctl.py]) and print nothing, the one call to the store being all that
    happens. *)
Theorem absent_or_empty_blob_reads_empty `{Runtime}
    (self : SubctlPy.SubCtlOrchestrator) (w : world) :
  goes_through 1 w = true ->
  (redis w !! "subctl:agents" = None
   \/ exists t, redis w !! "subctl:agents" = Some (mk_entry (RString "") t)) ->
  Orchestrator.get_all_agents w = (Ok [], with_faults (tl (faults w)) w)
  /\ SubctlPy.get_all_agents self w
     = (Ok (SubctlPy.agents self), with_faults (tl (faults w)) w).
Proof.
  intros Hgo Hkey. rewrite subctl_py_get_all_agents_eq, get_all_agents_eq, read_agents_eq.
  assert (exists agent_data,
            redis_get "subctl:agents" w = (Ok agent_data, with_faults (tl (faults w)) w)
            /\ (agent_data = None \/ agent_data = Some "")) as (agent_data & -> & Hd).
  { unfold redis_get, client_call, goes_through in *. destruct w as [r f c k].
    simpl in *. destruct f as [|[e|] plan]; [|done|]; simpl;
      destruct Hkey as [->|[t ->]]; eauto. }
  by destruct Hd as [->| ->].
Qed.


Section ReaderScenes.
#[local] Existing Instance Sample.runtime.


Lemma absent_or_empty_blob_reads_empty_witness :
  Orchestrator.get_all_agents Scenes.empty_store = (Ok [], Scenes.empty_store)
  /\ SubctlPy.get_all_agents SubctlPy.init Scenes.empty_store
     = (Ok [], Scenes.empty_store).
Proof.
  apply (absent_or_empty_blob_reads_empty SubctlPy.init Scenes.empty_store).
  - reflexivity.
  - left. reflexivity.
Defined.

End ReaderScenes.

(** ** The liveness loop as a filter *)

Section FilterExtras.
Context `{Runtime}.

Lemma age_within_b td T :
  Qle_bool (total_seconds td / inject_Z 60) (inject_Z T) = (td <=? timedelta_minutes T).
Proof.
  destruct (Z.leb_spec td (timedelta_minutes T)) as [Hle|Hgt].
  - by apply age_within.
  - destruct (Qle_bool _ _) eqn:E; [|done]. apply age_within in E. lia.
Qed.

Lemma fresh_items_keys now T snap k :
  In k (dict_keys (fresh_items now T snap)) -> In k (dict_keys snap).
Proof.
  unfold fresh_items, dict_keys. rewrite !in_map_iff.
  intros (kv & <- & [Hin _]%filter_In). eauto.
Qed.

Lemma fresh_items_NoDup now T snap :
  NoDup (dict_keys snap) -> NoDup (dict_keys (fresh_items now T snap)).
Proof.
  induction snap as [|[k v] rest IH]; [done|]. intros [Hk Hnd]%NoDup_cons.
  unfold fresh_items. simpl. destruct (fresh now T v); [|by apply IH].
  simpl. apply NoDup_cons. split; [|by apply IH].
  intros Hin. apply Hk. apply list_elem_of_In. apply list_elem_of_In in Hin.
  by eapply fresh_items_keys.
Qed.

Lemma fresh_items_naive now T snap :
  naive_timestamps snap = true -> naive_timestamps (fresh_items now T snap) = true.
Proof.
  unfold naive_timestamps, fresh_items. rewrite !forallb_forall.
  intros Hall kv [Hin _]%filter_In. by apply Hall.
Qed.

Lemma fresh_items_idem now T snap :
  fresh_items now T (fresh_items now T snap) = fresh_items now T snap.
Proof.
  induction snap as [|[k v] rest IH]; [done|]. unfold fresh_items in *. simpl.
  destruct (fresh now T v) eqn:E; [|done]. simpl. by rewrite E, IH.
Qed.

Lemma fresh_mono now T T' v : T <= T' -> fresh now T v = true -> fresh now T' v = true.
Proof.
  intros HT. unfold fresh. destruct v as [a|]; [|done].
  destruct (last_update a); try done. rewrite !Z.leb_le. unfold timedelta_minutes. lia.
Qed.

Lemma fresh_items_lookup now T snap k v :
  NoDup (dict_keys snap) ->
  dict_get k (fresh_items now T snap) = Some v
  <-> dict_get k snap = Some v /\ fresh now T v = true.
Proof.
  intros Hnd. split.
  - intros Hk. apply dict_get_In in Hk. apply filter_In in Hk as [Hin Hf].
    split; [by apply In_dict_get|done].
  - intros [Hk Hf]. apply In_dict_get; [by apply fresh_items_NoDup|].
    apply filter_In. split; [by apply dict_get_In|done].
Qed.

(** On naive timestamps the loop appends to [active_agents] the items it finds
    within the threshold, in their order. *)
Lemma active_loop_filter now T items acc :
  tzinfo now = None -> naive_timestamps items = true ->
  NoDup (dict_keys acc ++ dict_keys items) ->
  Orchestrator.active_loop now T items acc = Ok (acc ++ fresh_items now T items).
Proof.
  intros Hnow. revert acc. induction items as [|[lbl agent] rest IH]; intros acc.
  - intros _ _. simpl. by rewrite app_nil_r.
  - intros [Hhd Htl]%andb_true_iff Hnd.
    assert (dict_get lbl acc = None) as Hfresh.
    { apply dict_get_None. intros Hin. apply NoDup_app in Hnd as (_ & Hd & _).
      apply (Hd lbl); [by apply list_elem_of_In|]. by left. }
    assert (NoDup (dict_keys acc ++ dict_keys rest)) as Hrest.
    { apply NoDup_app in Hnd as (Ha & Hd & [_ Hr]%NoDup_cons).
      apply NoDup_app. split; [done|]. split; [|done].
      intros x Hx Hx'. apply (Hd x Hx). by right. }
    destruct agent as [a|v0]; [|by apply IH].
    unfold fresh_items. cbn [Orchestrator.active_loop List.filter snd fresh].
    fold (fresh_items now T rest).
    cbn [snd] in Hhd. unfold Orchestrator.age_minutes.
    destruct (last_update a) as [| | | | | | |d]; try done.
    destruct (tzinfo d) eqn:Etz; [done|].
    unfold datetime_sub. rewrite Hnow, Etz. cbn [rbind]. rewrite age_within_b.
    destruct (elapsed now d <=? timedelta_minutes T); [|by apply IH].
    rewrite dict_set_fresh by done. rewrite IH; [by rewrite <- app_assoc|done|].
    unfold dict_keys. rewrite map_app, <- app_assoc. exact Hnd.
Qed.

Lemma active_loop_returns_naive now T items acc m :
  tzinfo now = None -> Orchestrator.active_loop now T items acc = Ok m ->
  naive_timestamps items = true.
Proof.
  intros Hnow Hm. destruct (naive_timestamps items) eqn:E; [done|].
  by rewrite active_loop_raises in Hm.
Qed.

End FilterExtras.


(** X5.  The liveness loop is idempotent: run on a mapping it returned, with
    the same clock and threshold, it returns that mapping again. *)
Theorem active_loop_is_idempotent `{Runtime}
    (now : datetime) (T : Z) (snapshot m : dict agent_value) :
  tzinfo now = None ->
  nodupb (dict_keys snapshot) = true ->
  Orchestrator.active_loop now T snapshot [] = Ok m ->
  Orchestrator.active_loop now T m [] = Ok m.
Proof.
  intros Hnow Hnd%nodupb_NoDup Hm.
  pose proof (active_loop_returns_naive _ _ _ _ _ Hnow Hm) as Hnaive.
  rewrite active_loop_filter in Hm by done. injection Hm as <-.
  rewrite active_loop_filter; [by rewrite fresh_items_idem|done| |].
  - by apply fresh_items_naive.
  - by apply fresh_items_NoDup.
Qed.

(** X6.  The active set grows with the threshold: whatever
    [get_active_agents] returns for [T] minutes is part of what it returns,
    from the same store and clock, for any larger [T']; a call that returns
    for [T] returns for [T']. *)
Theorem active_set_grows_with_threshold `{Runtime}
    (w : world) (T T' : Z) (m : dict agent_value) (w1 : world) :
  T <= T' ->
  Orchestrator.get_active_agents (Some T) w = (Ok m, w1) ->
  exists m',
    Orchestrator.get_active_agents (Some T') w = (Ok m', w1)
    /\ dict_submap m m'.
Proof.
  intros HT. rewrite !get_active_agents_eq.
  destruct (get_all_agents_cases w) as (snap & w0 & Hall & _). rewrite Hall.
  destruct (get_all_agents_NoDup _ _ _ Hall) as [Hnd _]. simpl.
  intros [= Hm <-].
  pose proof (active_loop_returns_naive (local_now w0) _ _ _ _ eq_refl Hm) as Hnaive.
  rewrite active_loop_filter in Hm by done. injection Hm as <-.
  rewrite active_loop_filter by done. eexists. split; [reflexivity|].
  intros k v. simpl. rewrite !fresh_items_lookup by done.
  intros [Hk Hf]. split; [done|]. by apply fresh_mono with T.
Qed.

(** X7.  One record whose [last_update] does not subtract from the naive
    clock (a datetime with a UTC offset, or no datetime at all, as after a
    [null] in the blob) makes [get_active_agents] raise [TypeError] for the
    whole fleet: no partial active set is returned. *)
Theorem get_active_agents_needs_naive_timestamps `{Runtime}
    (w : world) (snapshot : dict agent_value) (w1 : world) (max_age_minutes : option Z) :
  Orchestrator.get_all_agents w = (Ok snapshot, w1) ->
  naive_timestamps snapshot = false ->
  Orchestrator.get_active_agents max_age_minutes w = (Raise TypeError, w1).
Proof.
  intros Hall Hbad. rewrite get_active_agents_eq, Hall.
  by rewrite active_loop_raises.
Qed.

Section FilterScenes.
#[local] Existing Instance Sample.runtime.


Lemma active_loop_is_idempotent_witness :
  Orchestrator.active_loop Demo.noon 10
    [("alpha", Agent (Demo.agent_record "alpha" (Demo.at_time 11 55) (VInt 1200)));
     ("gamma", Agent (Demo.agent_record "gamma" (Demo.at_time 12 30) (VInt 5)))] []
  = Ok [("alpha", Agent (Demo.agent_record "alpha" (Demo.at_time 11 55) (VInt 1200)));
        ("gamma", Agent (Demo.agent_record "gamma" (Demo.at_time 12 30) (VInt 5)))].
Proof.
  apply (active_loop_is_idempotent Demo.noon 10 Demo.fleet_snapshot).
  - reflexivity.
  - reflexivity.
  - vm_compute. reflexivity.
Defined.

Lemma active_set_grows_with_threshold_witness :
  exists m',
    Orchestrator.get_active_agents (Some 20) Demo.fleet = (Ok m', Demo.fleet)
    /\ dict_submap
         [("alpha", Agent (Demo.agent_record "alpha" (Demo.at_time 11 55) (VInt 1200)));
          ("gamma", Agent (Demo.agent_record "gamma" (Demo.at_time 12 30) (VInt 5)))]
         m'.
Proof.
  apply (active_set_grows_with_threshold Demo.fleet 10 20).
  - lia.
  - vm_compute. reflexivity.
Defined.

(** With 20 minutes [beta] is active as well. *)
Example fleet_active_threshold_20 :
  dict_keys (fresh_items Demo.noon 20 Demo.fleet_snapshot) = ["alpha"; "beta"; "gamma"].
Proof. reflexivity. Qed.

Lemma get_active_agents_needs_naive_timestamps_witness :
  Orchestrator.get_active_agents None (Demo.world_with Demo.aware_text [])
  = (Raise TypeError, Demo.world_with Demo.aware_text []).
Proof.
  apply (get_active_agents_needs_naive_timestamps
           (Demo.world_with Demo.aware_text []) Scenes.aware_snapshot).
  - vm_compute. reflexivity.
  - reflexivity.
Defined.

(** The record [draft] was written with [null] for its timestamp. *)
Example null_timestamp_raises :
  Orchestrator.get_all_agents (Demo.world_with Scenes.ghost_text [])
  = (Ok Scenes.ghost_snapshot, Demo.world_with Scenes.ghost_text [])
  /\ fst (Orchestrator.get_active_agents None (Demo.world_with Scenes.ghost_text []))
     = Raise TypeError.
Proof. split; vm_compute; reflexivity. Qed.

End FilterScenes.

(** ** The recorder of [subctl.py] *)

Section RecorderExtras.
Context `{Runtime}.

(** [record_agent_event] of [subctl.py] by the outcome of its two calls. *)
Lemma subctl_py_record_agent_event_eq self agent_label event w :
  SubctlPy.record_agent_event self agent_label event w
  = if json_serializable (asdict event) then
      match redis_lpush (event_key agent_label) (json_text (asdict event)) w with
      | (Ok _, w1) =>
          match redis_expire (event_key agent_label) 3600 w1 with
          | (Ok _, w2) => (Ok tt, w2)
          | (Raise e, w2) =>
              (Ok tt, with_console (console w2 ++ [SubctlPy.record_error e]) w2)
          end
      | (Raise e, w1) =>
          (Ok tt, with_console (console w1 ++ [SubctlPy.record_error e]) w1)
      end
    else (Ok tt, with_console (console w ++ [SubctlPy.record_error TypeError]) w).
Proof.
  unfold SubctlPy.record_agent_event, try_except, bind, lift, json_dumps, event_key.
  simpl load_global. cbv iota beta.
  destruct (json_serializable (asdict event)); [|done].
  destruct (redis_lpush _ _ w) as [[n|e] w1]; [|done].
  by destruct (redis_expire _ _ w1) as [[b|e] w2].
Qed.

Lemma redis_lpush_frame key value w r w1 :
  redis_lpush key value w = (r, w1) ->
  (forall k, k <> key -> redis w1 !! k = redis w !! k)
  /\ console w1 = console w /\ clock w1 = clock w.
Proof.
  unfold redis_lpush, client_call. destruct w as [store f c k0]. simpl.
  destruct f as [|[e|] plan]; simpl;
    try destruct (store !! key) as [[[text|items] t]|]; simpl;
    intros [= _ <-]; simpl; repeat split; intros; by rewrite ?lookup_insert_ne.
Qed.

Lemma redis_expire_frame key seconds w r w1 :
  redis_expire key seconds w = (r, w1) ->
  (forall k, k <> key -> redis w1 !! k = redis w !! k)
  /\ console w1 = console w /\ clock w1 = clock w.
Proof.
  unfold redis_expire, client_call. destruct w as [store f c k0]. simpl.
  destruct f as [|[e|] plan]; simpl;
    try destruct (store !! key) as [[v t]|]; simpl;
    try destruct (0 <? seconds); simpl;
    intros [= _ <-]; simpl; repeat split; intros;
    by rewrite ?lookup_insert_ne, ?lookup_delete_ne.
Qed.

(** When both calls go through, the world after the call. *)
Lemma subctl_py_record_agent_event_stores self agent_label event w :
  json_serializable (asdict event) = true ->
  goes_through 2 w = true ->
  holds_text w (event_key agent_label) = false ->
  SubctlPy.record_agent_event self agent_label event w
  = (Ok tt,
     mk_world (<[event_key agent_label :=
                   mk_entry (RList (json_text (asdict event) :: events_of w agent_label))
                            (Some 3600)]> (redis w))
              (skipn 2 (faults w)) (console w) (clock w)).
Proof.
  intros Hs Hgo Htext. rewrite subctl_py_record_agent_event_eq, Hs.
  unfold redis_lpush, redis_expire, client_call, goes_through, holds_text, events_of in *.
  destruct w as [store f c k0]. simpl in *.
  destruct f as [|[e|] [|[e'|] plan]]; try done; simpl;
    destruct (store !! event_key agent_label) as [[[text|items] t]|]; try done; simpl;
    rewrite lookup_insert_eq; simpl; by rewrite insert_insert_eq.
Qed.

Lemma events_key_is_not_snapshot_key agent_label : "subctl:agents" <> event_key agent_label.
Proof. unfold event_key. simpl. discriminate. Qed.

End RecorderExtras.

(** X8.  In [src/subctl.py], when the event serializes and the two calls of
    the client go through, [record_agent_event] puts the JSON text of the
    event at the head of the list of the label, before the events already
    there, and sets the expiry of the whole list to 3600 seconds, whatever it
    was; it prints nothing and touches no other key. *)
Theorem subctl_py_record_agent_event_pushes_head `{Runtime}
    (self : SubctlPy.SubCtlOrchestrator) (agent_label : string) (event : AgentEvent)
    (w : world) :
  json_serializable (asdict event) = true ->
  goes_through 2 w = true ->
  holds_text w (event_key agent_label) = false ->
  exists w',
    SubctlPy.record_agent_event self agent_label event w = (Ok tt, w')
    /\ events_of w' agent_label = json_text (asdict event) :: events_of w agent_label
    /\ ttl_of w' (event_key agent_label) = Some 3600
    /\ console w' = console w
    /\ forall k, k <> event_key agent_label -> redis w' !! k = redis w !! k.
Proof.
  intros Hs Hgo Htext. eexists. split; [by apply subctl_py_record_agent_event_stores|].
  unfold events_of at 1, ttl_of. simpl. rewrite lookup_insert_eq.
  repeat split. intros k Hk. by rewrite lookup_insert_ne.
Qed.

(** X9.  Events recorded one after the other through [subctl.py] are listed
    most recent first: after the calls the list of the label holds their JSON
    texts in reverse order of recording, followed by what it held before. *)
Theorem recorded_events_are_latest_first `{Runtime}
    (self : SubctlPy.SubCtlOrchestrator) (agent_label : string)
    (events : list AgentEvent) (w : world) :
  forallb (fun event => json_serializable (asdict event)) events = true ->
  faults w = [] ->
  holds_text w (event_key agent_label) = false ->
  exists w',
    record_each self agent_label events w = (Ok tt, w')
    /\ events_of w' agent_label
       = rev (map (fun event => json_text (asdict event)) events)
         ++ events_of w agent_label
    /\ console w' = console w.
Proof.
  revert w. induction events as [|event rest IH]; intros w; simpl.
  - intros _ _ _. by exists w.
  - intros [Hs Hrest]%andb_true_iff Hf Htext. unfold bind.
    rewrite subctl_py_record_agent_event_stores; [|done| |done].
    2: { unfold goes_through. by rewrite Hf. }
    set (w1 := mk_world _ _ _ _).
    destruct (IH w1 Hrest) as (w' & -> & Hev & Hc).
    + unfold w1. simpl. by rewrite Hf.
    + unfold holds_text, w1. simpl. by rewrite lookup_insert_eq.
    + exists w'. split; [done|]. split; [|done].
      rewrite Hev. unfold events_of at 1, w1. simpl. rewrite lookup_insert_eq.
      by rewrite <- app_assoc.
Qed.

(** X10.  The push and the expiry are two calls: when the second one fails,
    [record_agent_event] of [subctl.py] has already recorded the event; the
    list keeps the time to live it had (none, for a new list), and the one
    diagnostic is printed. *)
Theorem failed_expire_keeps_the_pushed_event `{Runtime}
    (self : SubctlPy.SubCtlOrchestrator) (agent_label : string) (event : AgentEvent)
    (w : world) (e : exc_class) (plan : list (option exc_class)) :
  json_serializable (asdict event) = true ->
  faults w = None :: Some e :: plan ->
  holds_text w (event_key agent_label) = false ->
  exists w',
    SubctlPy.record_agent_event self agent_label event w = (Ok tt, w')
    /\ events_of w' agent_label = json_text (asdict event) :: events_of w agent_label
    /\ ttl_of w' (event_key agent_label) = ttl_of w (event_key agent_label)
    /\ console w' = console w ++ [SubctlPy.record_error e].
Proof.
  intros Hs Hf Htext. rewrite subctl_py_record_agent_event_eq, Hs.
  unfold redis_lpush, redis_expire, client_call, holds_text, events_of, ttl_of in *.
  destruct w as [store f c k0]. simpl in *. subst f.
  destruct (store !! event_key agent_label) as [[[text|items] t]|]; try done; simpl;
    eexists; (split; [reflexivity|]); simpl; by rewrite lookup_insert_eq.
Qed.

(** X11.  [record_agent_event] of [subctl.py] never raises, whatever the
    event and the state of the store, and prints at most its one diagnostic.
    It changes no key but the event list of its label: the snapshot under
    [subctl:agents] in particular is left as it was, and so is the clock. *)
Theorem subctl_py_record_agent_event_is_contained `{Runtime}
    (self : SubctlPy.SubCtlOrchestrator) (agent_label : string) (event : AgentEvent)
    (w : world) :
  exists w',
    SubctlPy.record_agent_event self agent_label event w = (Ok tt, w')
    /\ (forall k, k <> event_key agent_label -> redis w' !! k = redis w !! k)
    /\ redis w' !! "subctl:agents" = redis w !! "subctl:agents"
    /\ clock w' = clock w
    /\ (console w' = console w
        \/ exists e, console w' = console w ++ [SubctlPy.record_error e]).
Proof.
  assert (exists w',
            SubctlPy.record_agent_event self agent_label event w = (Ok tt, w')
            /\ (forall k, k <> event_key agent_label -> redis w' !! k = redis w !! k)
            /\ clock w' = clock w
            /\ (console w' = console w
                \/ exists e, console w' = console w ++ [SubctlPy.record_error e]))
    as (w' & Hw & Hk & Hc & Hp).
  { rewrite subctl_py_record_agent_event_eq.
    destruct (json_serializable (asdict event)).
    - destruct (redis_lpush _ _ w) as [[n|e] w1] eqn:E1;
        apply redis_lpush_frame in E1 as (Hk1 & Hc1 & Ht1).
      + destruct (redis_expire _ _ w1) as [[b|e] w2] eqn:E2;
          apply redis_expire_frame in E2 as (Hk2 & Hc2 & Ht2).
        * exists w2. split; [done|]. split; [|split; [congruence|left; congruence]].
          intros k Hk. by rewrite Hk2, Hk1.
        * eexists. split; [done|]. simpl.
          split; [|split; [congruence|right; exists e; congruence]].
          intros k Hk. by rewrite Hk2, Hk1.
      + eexists. split; [done|]. simpl.
        split; [done|]. split; [done|]. right. exists e. by rewrite Hc1.
    - eexists. split; [done|]. simpl. eauto. }
  exists w'. split; [done|]. split; [done|]. split; [|done].
  apply Hk, events_key_is_not_snapshot_key.
Qed.

Section RecorderScenes.
#[local] Existing Instance Sample.runtime.

Lemma subctl_py_record_agent_event_pushes_head_witness :
  exists w',
    SubctlPy.record_agent_event SubctlPy.init "x" Demo.started_as_text Scenes.one_event
    = (Ok tt, w')
    /\ events_of w' "x" = [json_text (asdict Demo.started_as_text); "{}"]
    /\ ttl_of w' "subctl:events:x" = Some 3600
    /\ console w' = []
    /\ forall k, k <> "subctl:events:x" -> redis w' !! k = redis Scenes.one_event !! k.
Proof.
  apply (subctl_py_record_agent_event_pushes_head SubctlPy.init "x"
           Demo.started_as_text Scenes.one_event); reflexivity.
Defined.

Lemma recorded_events_are_latest_first_witness :
  exists w',
    record_each SubctlPy.init "x" [Demo.started_as_text; Scenes.finished] Scenes.one_event
    = (Ok tt, w')
    /\ events_of w' "x"
       = [json_text (asdict Scenes.finished); json_text (asdict Demo.started_as_text);
          "{}"]
    /\ console w' = [].
Proof.
  apply (recorded_events_are_latest_first SubctlPy.init "x"
           [Demo.started_as_text; Scenes.finished] Scenes.one_event); reflexivity.
Defined.

Lemma failed_expire_keeps_the_pushed_event_witness :
  exists w',
    SubctlPy.record_agent_event SubctlPy.init "x" Demo.started_as_text
      (with_faults [None; Some TimeoutError] Scenes.one_event)
    = (Ok tt, w')
    /\ events_of w' "x" = [json_text (asdict Demo.started_as_text); "{}"]
    /\ ttl_of w' "subctl:events:x" = Some 20
    /\ console w' = [] ++ [SubctlPy.record_error TimeoutError].
Proof.
  apply (failed_expire_keeps_the_pushed_event SubctlPy.init "x" Demo.started_as_text
           (with_faults [None; Some TimeoutError] Scenes.one_event) TimeoutError []);
    reflexivity.
Defined.

End RecorderScenes.

(** ** [agents inspect] on what the snapshot holds *)

Section InspectExtras.
Context `{Runtime}.

Lemma with_console_twice c c' w : with_console c (with_console c' w) = with_console c w.
Proof. done. Qed.

Lemma inspect_found agent_label logs tools tokens packages w snapshot w1 agent_info :
  Orchestrator.get_all_agents w = (Ok snapshot, w1) ->
  dict_get agent_label snapshot = Some agent_info ->
  Cli.inspect agent_label logs tools tokens packages w
  = (if truthy agent_info then
       v <- lift (attr label agent_info) ;;
       console_print ("[bold]Agent: " +:+ str_of v +:+ "[/bold]") ;;;
       v <- lift (attr status agent_info) ;;
       console_print ("Status: " +:+ str_of v) ;;;
       v <- lift (attr total_tokens agent_info) ;;
       text <- lift (format_spec "," v) ;;
       console_print ("Tokens: " +:+ text) ;;;
       v <- lift (attr package_compliance agent_info) ;;
       text <- lift (format_spec ".1%" v) ;;
       console_print ("Package Compliance: " +:+ text) ;;;
       v <- lift (attr last_update agent_info) ;;
       text <- lift (match v with
                     | VDatetime d => Ok (strftime "%Y-%m-%d %H:%M:%S" d)
                     | _ => Raise AttributeError
                     end) ;;
       console_print ("Last Update: " +:+ text) ;;;
       Cli.section_header logs "Recent Activity (last 10 minutes)" ;;;
       Cli.section_header tools "Recent Tool Calls" ;;;
       Cli.section_header tokens "Token Usage" ;;;
       Cli.section_header packages "Package Compliance"
     else console_print (Cli.not_found agent_label))%M w1.
Proof.
  intros Hall Hv. unfold Cli.inspect at 1, bind at 1.
  by rewrite get_agent_info_eq, Hall, Hv.
Qed.

End InspectExtras.





Section InspectScenes.
#[local] Existing Instance Sample.runtime.


(** The label [ghost] holds [null]: it is in the snapshot and not found. *)
Example ghost_is_not_found :
  dict_get "ghost" Scenes.ghost_snapshot = Some (Other VNone)
  /\ Cli.inspect "ghost" false false false false (Demo.world_with Scenes.ghost_text [])
     = (Ok tt, with_console [Cli.not_found "ghost"] (Demo.world_with Scenes.ghost_text [])).
Proof. split; vm_compute; reflexivity. Qed.



End InspectScenes.

(** ** The table *)

Section TableExtras.
Context `{Runtime}.

(** The two files build the table with the same text. *)
Lemma generate_agents_table_same :
  SubctlPyMain.generate_agents_table = CliMain.generate_agents_table.
Proof. reflexivity. Qed.

Lemma row_cells_shape a cells :
  CliMain.row_cells (Agent a) = Ok cells ->
  exists status_text tokens_text compliance_text tickets_text d,
    cells = [label a; VStr status_text; VStr tokens_text; VStr compliance_text;
             VStr tickets_text; VStr (strftime "%H:%M:%S" d)]
    /\ last_update a = VDatetime d.
Proof.
  unfold CliMain.row_cells, attr. cbn [rbind].
  destruct (status_color_get (status a)) as [color|]; [cbn [rbind]|done].
  destruct (Cli.compliance_text (Agent a)) as [compliance|]; [cbn [rbind]|done].
  destruct (format_spec "," (total_tokens a)) as [count|]; [cbn [rbind]|done].
  destruct (slice3 (assigned_tickets a)) as [first|]; [cbn [rbind]|done].
  destruct (py_join ", " first) as [tickets|]; [cbn [rbind]|done].
  unfold py_strftime. destruct (last_update a) as [| | | | | | |d]; try done.
  cbn [rbind]. intros [= <-]. by eexists _, _, _, _, d.
Qed.

Lemma add_rows_spec values t t' :
  CliMain.add_rows values t = Done t' ->
  title t' = title t /\ columns t' = columns t
  /\ exists rs, rows t' = rows t ++ rs /\ Forall2 row_of values rs.
Proof.
  revert t. induction values as [|agent rest IH]; intros t; simpl.
  - intros [= <-]. repeat split. exists []. by rewrite app_nil_r.
  - destruct (CliMain.row_cells agent) as [cells|e] eqn:Ecells; [simpl|done].
    unfold add_row. destruct (renderables cells) as [row|e] eqn:Erow; [simpl|done].
    intros Hrest. apply IH in Hrest as (Ht & Hc & rs & Hrows & Hall). simpl in *.
    split; [done|]. split; [done|]. exists (row :: rs).
    split; [by rewrite Hrows, <- app_assoc|]. constructor; [|done].
    destruct agent as [a|v]; [|done].
    apply row_cells_shape in Ecells as (s2 & s3 & s4 & s5 & d & -> & Hd).
    simpl in Erow. destruct (renderable (label a)) as [name|] eqn:En; [|done].
    simpl in Erow. injection Erow as <-. by exists a, name, d.
Qed.

Lemma add_rows_fails values t v :
  In (Other v) values -> exists e, CliMain.add_rows values t = Fail e.
Proof.
  revert t. induction values as [|agent rest IH]; intros t; simpl; [done|].
  intros [->|Hin]; [by eauto|].
  destruct (CliMain.row_cells agent) as [cells|e]; simpl; [|by eauto].
  destruct (add_row cells t) as [t'|e]; simpl; [by apply IH|by eauto].
Qed.

Lemma row_cells_first_three v :
  CliMain.row_cells (first_three_tickets v) = CliMain.row_cells v.
Proof.
  destruct v as [a|v]; [|done]. unfold first_three_tickets.
  destruct (assigned_tickets a) as [| | | | |xs| |] eqn:E; try done.
  unfold CliMain.row_cells, Cli.compliance_text, attr, with_tickets.
  cbn [rbind status label total_tokens assigned_tickets last_update package_compliance].
  rewrite E. cbn [slice3 rbind]. by rewrite firstn_firstn.
Qed.

End TableExtras.

(** X16.  When [generate_agents_table] returns, the table has one row for
    each value of the mapping, in the order of the mapping; every value is a
    record, its row has the six cells of the six columns, the first being the
    [label] field of the record (not the key it is stored under) and the last
    the time of day of its [last_update], which is a datetime. *)
Theorem table_has_a_row_per_agent `{Runtime} (agents : dict agent_value) (t : Table) :
  CliMain.generate_agents_table agents = Done t ->
  title t = "Sub-Agent Status"
  /\ map header (columns t) = table_headers
  /\ Forall2 row_of (map snd agents) (rows t).
Proof.
  unfold CliMain.generate_agents_table. intros Ht.
  by apply add_rows_spec in Ht as (-> & -> & rs & -> & Hall).
Qed.

(** X17.  The Tickets cell shows the first three tickets only: cutting every
    list of tickets after its third item changes nothing in what
    [generate_agents_table] returns or raises, in either file.  A fourth
    ticket is never looked at, even when it is no string. *)
Theorem table_shows_three_tickets `{Runtime} (agents : dict agent_value) :
  CliMain.generate_agents_table
    (map (fun kv => (fst kv, first_three_tickets (snd kv))) agents)
  = CliMain.generate_agents_table agents
  /\ SubctlPyMain.generate_agents_table
       (map (fun kv => (fst kv, first_three_tickets (snd kv))) agents)
     = SubctlPyMain.generate_agents_table agents.
Proof.
  assert (forall t,
            CliMain.add_rows
              (map snd (map (fun kv => (fst kv, first_three_tickets (snd kv))) agents)) t
            = CliMain.add_rows (map snd agents) t) as Hrows.
  { induction agents as [|[k v] rest IH]; intros t; simpl; [done|].
    rewrite row_cells_first_three.
    destruct (CliMain.row_cells v) as [cells|]; simpl; [|done].
    destruct (add_row cells t); simpl; [apply IH|done]. }
  split; apply Hrows.
Qed.

Section TableScenes.
#[local] Existing Instance Sample.runtime.

Lemma table_has_a_row_per_agent_witness :
  title (mk_Table "Sub-Agent Status" (columns CliMain.empty_table) Scenes.pair_rows)
  = "Sub-Agent Status"
  /\ map header (columns CliMain.empty_table) = table_headers
  /\ Forall2 row_of (map snd Scenes.pair) Scenes.pair_rows.
Proof.
  assert (CliMain.generate_agents_table Scenes.pair
          = Done (mk_Table "Sub-Agent Status" (columns CliMain.empty_table)
                           Scenes.pair_rows)) as Ht
    by (vm_compute; reflexivity).
  exact (table_has_a_row_per_agent Scenes.pair _ Ht).
Defined.

(** [busy] has five tickets, the fifth a number: the table shows three. *)
Example busy_row :
  CliMain.row_cells (Agent Scenes.busy)
  = Ok [VStr "busy"; VStr "[red]stalled[/red]"; VStr "1,234,567";
        VStr "[red]50.0%[/red]"; VStr "T-1, T-2, T-3"; VStr "11:58:00"].
Proof. vm_compute. reflexivity. Qed.

End TableScenes.

(** ** The listings and [main] *)

Section ListingExtras.
Context `{Runtime} `{Terminal}.

Lemma nonempty_of_lookup {V} (d : dict V) k v : dict_get k d = Some v -> nonempty d = true.
Proof. by destruct d. Qed.

Lemma show_all_eq w :
  CliMain.show_all w
  = match Orchestrator.get_all_agents w with
    | (Ok agents, w1) =>
        if nonempty agents then
          match CliMain.generate_agents_table agents with
          | Done table => (Done tt, with_console (console w1 ++ [render_table table]) w1)
          | Fail e => (Fail e, w1)
          end
        else (Done tt, with_console
                         (console w1 ++ ["[yellow]No agent data found in Redis[/yellow]"]) w1)
    | (Raise e, w1) => (Fail (Python e), w1)
    end.
Proof.
  unfold CliMain.show_all, cbindM, call, clift, print_table.
  destruct (Orchestrator.get_all_agents w) as [[agents|e] w1]; [|done].
  destruct (nonempty agents); [|done].
  by destruct (CliMain.generate_agents_table agents).
Qed.

Lemma subctl_py_show_all_eq self w :
  SubctlPyMain.show_all self w
  = match SubctlPy.get_all_agents self w with
    | (Ok agents, w1) =>
        match CliMain.generate_agents_table agents with
        | Done table => (Done tt, with_console (console w1 ++ [render_table table]) w1)
        | Fail e => (Fail e, w1)
        end
    | (Raise e, w1) => (Fail (Python e), w1)
    end.
Proof.
  unfold SubctlPyMain.show_all, cbindM, call, clift, print_table.
  destruct (SubctlPy.get_all_agents self w) as [[agents|e] w1]; [|done].
  change (SubctlPyMain.generate_agents_table agents)
    with (CliMain.generate_agents_table agents).
  by destruct (CliMain.generate_agents_table agents).
Qed.

(** One round of the watch loop while the store refuses the call. *)
Lemma show_active_outage w e plan :
  faults w = Some e :: plan ->
  CliMain.show_active w
  = (Done tt, mk_world (redis w) plan (console w ++ outage_lines e) (clock w)).
Proof.
  intros Hf. unfold CliMain.show_active, cbindM, call.
  rewrite get_active_agents_eq, get_all_agents_eq, (read_agents_call_fails _ _ _ Hf).
  simpl. unfold with_console, with_faults, outage_lines. simpl.
  by rewrite <- !app_assoc.
Qed.

End ListingExtras.

(** X18.  [agents list --stale] on a snapshot that holds a value which is no
    record (the reader passes such values on) fails: building the table
    raises, and no table and no notice is printed. *)
Theorem stale_listing_fails_on_a_non_record `{Runtime} `{Terminal}
    (w : world) (snapshot : dict agent_value) (w1 : world) (lbl : string) (v : pyval) :
  Orchestrator.get_all_agents w = (Ok snapshot, w1) ->
  dict_get lbl snapshot = Some (Other v) ->
  exists e, CliMain.show_all w = (Fail e, w1).
Proof.
  intros Hall Hv. rewrite show_all_eq, Hall, (nonempty_of_lookup _ _ _ Hv).
  destruct (add_rows_fails (map snd snapshot) CliMain.empty_table v) as [e He].
  - apply dict_get_In in Hv. by apply (in_map snd) in Hv.
  - exists e. unfold CliMain.generate_agents_table. by rewrite He.
Qed.

(** X19.  [agents list] of [src/subctl.py] is the [--stale] listing of
    [cli.py]: whenever the snapshot is not empty the two print the same and
    leave the same world, stale agents included.  ([subctl.py] has no
    liveness filter in its listing.) *)
Theorem subctl_py_list_is_the_stale_listing `{Runtime} `{Terminal}
    (w : world) (snapshot : dict agent_value) (w1 : world) :
  Orchestrator.get_all_agents w = (Ok snapshot, w1) ->
  nonempty snapshot = true ->
  SubctlPyMain.show_all SubctlPy.init w = CliMain.show_all w.
Proof.
  rewrite show_all_eq, subctl_py_show_all_eq, subctl_py_get_all_agents_eq,
    get_all_agents_eq.
  destruct (Orchestrator.read_agents w) as [[[res|]|e] w0]; intros [= <- <-]; try done.
  by intros ->.
Qed.

(** X20.  A store that is down does not end the watch loop of [cli.py]: in
    every round [get_active_agents] swallows the failure, the round prints
    the reader's diagnostic and the two no-agents lines, and the loop goes on
    until the operator stops it; nothing is written to the store. *)
Theorem watch_survives_an_outage `{Runtime} `{Terminal}
    (seconds : Z) (wakeups : list datetime) (es : list exc_class) (w : world) :
  0 <= seconds ->
  length es = S (length wakeups) ->
  faults w = map Some es ->
  exists w',
    CliMain.watch_loop seconds wakeups w = (Done tt, w')
    /\ console w' = console w ++ flat_map outage_lines es ++ [stopped_line]
    /\ redis w' = redis w.
Proof.
  intros Hs. revert es w. induction wakeups as [|woken rest IH]; intros es w Hlen Hf.
  - destruct es as [|e [|]]; try done. simpl in Hf.
    unfold CliMain.watch_loop, cbindM. rewrite (show_active_outage _ _ _ Hf).
    destruct (Z.ltb_spec seconds 0); [lia|].
    eexists. split; [reflexivity|]. simpl. by rewrite <- ?app_assoc.
  - destruct es as [|e es]; [done|]. simpl in Hlen, Hf. injection Hlen as Hlen.
    cbn [CliMain.watch_loop]. unfold cbindM at 1. rewrite (show_active_outage _ _ _ Hf).
    unfold cbindM at 1, sleep. destruct (Z.ltb_spec seconds 0); [lia|].
    destruct (IH es (with_clock woken
                       (mk_world (redis w) (map Some es)
                                 (console w ++ outage_lines e) (clock w))) Hlen eq_refl)
      as (w' & -> & Hc & Hr).
    exists w'. split; [done|]. split; [|done].
    rewrite Hc. simpl. by rewrite <- !app_assoc.
Qed.

(** X21.  With a negative [--refresh] the watch loop of [cli.py] does one
    round and then fails: [time.sleep] refuses the negative length with
    [ValueError], which nothing catches, and the closing line is not printed;
    this does not depend on when the operator would have stopped the loop. *)
Theorem negative_refresh_stops_after_one_round `{Runtime} `{Terminal}
    (seconds : Z) (wakeups : list datetime) (w w1 : world) :
  seconds < 0 ->
  CliMain.show_active w = (Done tt, w1) ->
  CliMain.watch_loop seconds wakeups w = (Fail (Python ValueError), w1).
Proof.
  intros Hs Hround.
  destruct wakeups as [|woken rest]; cbn [CliMain.watch_loop]; unfold cbindM at 1;
    rewrite Hround; [|unfold cbindM, sleep]; unfold clift;
    by destruct (Z.ltb_spec seconds 0); [|lia].
Qed.

(** X22.  With [--watch], [agents list] of [cli.py] never looks at [--stale]:
    the command does the same with the flag and without it, and shows the
    active agents only. *)
Theorem watch_ignores_stale `{Runtime} `{Terminal}
    (args : Namespace) (b : bool) (wakeups : list datetime) (w : world) :
  watch args = true ->
  CliMain.main (with_stale b args) wakeups w = CliMain.main args wakeups w.
Proof.
  intros Hw. unfold CliMain.main, CliMain.list_agents, no_command, with_stale. simpl.
  by rewrite Hw.
Qed.

(** X23.  Without a command [main] prints the usage text, and [agents]
    without [list] or [inspect] prints nothing at all; in both files these
    runs return without a call to the store. *)
Theorem main_without_a_query_is_offline `{Runtime} `{Terminal}
    (args : Namespace) (wakeups : list datetime) (w : world) :
  no_command args = true
  \/ (is_command (agents_command args) "list" = false
      /\ is_command (agents_command args) "inspect" = false) ->
  CliMain.main args wakeups w
  = (Done tt, with_console (console w ++ (if no_command args then [help_text] else [])) w)
  /\ SubctlPyMain.main args wakeups w = CliMain.main args wakeups w.
Proof.
  unfold CliMain.main, SubctlPyMain.main.
  intros [->|[-> ->]]; [done|].
  destruct (no_command args); [done|].
  split; [|done]. destruct w as [store f c k]. unfold with_console, cret. simpl.
  rewrite app_nil_r. by destruct (is_command (command args) "agents").
Qed.

Section ListingScenes.
#[local] Existing Instance Sample.runtime.
#[local] Existing Instance Plain.terminal.

Lemma stale_listing_fails_on_a_non_record_witness :
  exists e, CliMain.show_all Demo.fleet = (Fail e, Demo.fleet).
Proof.
  apply (stale_listing_fails_on_a_non_record Demo.fleet Demo.fleet_snapshot Demo.fleet
           "note" (VStr "maintenance")).
  - vm_compute. reflexivity.
  - reflexivity.
Defined.

(** The same fleet listed without [--stale]: the note is filtered out and the
    table has the two active agents. *)
Example fleet_listed :
  CliMain.show_active Demo.fleet
  = (Done tt,
     with_console
       [str_join newline
          ["Sub-Agent Status";
           "Agent | Status | Tokens | Package Compliance | Tickets | Last Update";
           "alpha | [green]working[/green] | 1,200 | [yellow]90.0%[/yellow] | T-1, T-2 | 11:55:00";
           "gamma | [green]working[/green] | 5 | [yellow]90.0%[/yellow] | T-1, T-2 | 12:30:00"]]
       Demo.fleet).
Proof. vm_compute. reflexivity. Qed.

Lemma subctl_py_list_is_the_stale_listing_witness :
  SubctlPyMain.show_all SubctlPy.init (Demo.world_with Demo.stamp_T_text [])
  = CliMain.show_all (Demo.world_with Demo.stamp_T_text []).
Proof.
  apply (subctl_py_list_is_the_stale_listing (Demo.world_with Demo.stamp_T_text [])
           [("alpha", Agent (Demo.agent_record "alpha" (Demo.at_time 11 55) (VInt 1200)))]
           (Demo.world_with Demo.stamp_T_text [])).
  - vm_compute. reflexivity.
  - reflexivity.
Defined.

(** On an empty store [subctl.py] prints a table without rows, [cli.py] a
    notice. *)
Example empty_store_listed :
  console (snd (SubctlPyMain.show_all SubctlPy.init Scenes.empty_store))
  = [str_join newline
       ["Sub-Agent Status";
        "Agent | Status | Tokens | Package Compliance | Tickets | Last Update"]]
  /\ console (snd (CliMain.show_all Scenes.empty_store))
     = ["[yellow]No agent data found in Redis[/yellow]"].
Proof. split; vm_compute; reflexivity. Qed.

Lemma watch_survives_an_outage_witness :
  exists w',
    CliMain.watch_loop 5 [Demo.at_time 12 1]
      (Demo.world_with Demo.fleet_text [Some ConnectionError; Some TimeoutError])
    = (Done tt, w')
    /\ console w'
       = [] ++ flat_map outage_lines [ConnectionError; TimeoutError] ++ [stopped_line]
    /\ redis w' = redis Demo.fleet.
Proof.
  apply (watch_survives_an_outage 5 [Demo.at_time 12 1] [ConnectionError; TimeoutError]
           (Demo.world_with Demo.fleet_text [Some ConnectionError; Some TimeoutError])).
  - lia.
  - reflexivity.
  - reflexivity.
Defined.

Lemma negative_refresh_stops_after_one_round_witness :
  CliMain.watch_loop (-1) [Demo.at_time 12 1; Demo.at_time 12 2] Scenes.empty_store
  = (Fail (Python ValueError),
     with_console ["[yellow]No active agents found[/yellow]";
                   "[dim]Use --stale to see historical data[/dim]"] Scenes.empty_store).
Proof.
  apply (negative_refresh_stops_after_one_round (-1) [Demo.at_time 12 1; Demo.at_time 12 2]
           Scenes.empty_store).
  - lia.
  - vm_compute. reflexivity.
Defined.

Lemma watch_ignores_stale_witness :
  CliMain.main
    (with_stale true
       (mk_Namespace (Some "agents") (Some "list") true 5 false "" false false false false))
    [] Demo.fleet
  = CliMain.main
      (mk_Namespace (Some "agents") (Some "list") true 5 false "" false false false false)
      [] Demo.fleet.
Proof.
  apply (watch_ignores_stale
           (mk_Namespace (Some "agents") (Some "list") true 5 false "" false false false
                         false) true [] Demo.fleet).
  reflexivity.
Defined.

(** [subctl agents], with nothing after it. *)
Lemma main_without_a_query_is_offline_witness :
  CliMain.main
    (mk_Namespace (Some "agents") None false 5 false "" false false false false) []
    Demo.store_down
  = (Done tt, with_console (console Demo.store_down ++ []) Demo.store_down)
  /\ SubctlPyMain.main
       (mk_Namespace (Some "agents") None false 5 false "" false false false false) []
       Demo.store_down
     = CliMain.main
         (mk_Namespace (Some "agents") None false 5 false "" false false false false) []
         Demo.store_down.
Proof.
  apply (main_without_a_query_is_offline
           (mk_Namespace (Some "agents") None false 5 false "" false false false false)
           [] Demo.store_down).
  right. split; reflexivity.
Defined.

End ListingScenes.

(** ** Edge values of the blob *)

Section EdgeFacts.
Context `{Runtime}.

Lemma SFcompare_refl (f : spec_float) : SFeqb f f = false -> f = S754_nan.
Proof.
  unfold SFeqb. destruct f as [s|s| |s m e]; cbn [SFcompare]; try done.
  - by destruct s.
  - rewrite Z.compare_refl.
    destruct (compare_cont_cases m m) as [(_ & _ & Hlt)|[(-> & _)|(_ & _ & Hlt)]];
      [lia| |lia].
    by destruct s.
Qed.

(** A NaN is below nothing. *)
Lemma nan_not_below (x c : float) : PrimFloat.eqb x x = false -> PrimFloat.ltb x c = false.
Proof.
  rewrite FloatAxioms.eqb_spec, FloatAxioms.ltb_spec. intros Hnan%SFcompare_refl.
  by rewrite Hnan.
Qed.

Lemma dict_get_set k k' (v : pyval) d :
  dict_get k' (dict_set k v d) = if String.eqb k k' then Some v else dict_get k' d.
Proof.
  destruct (String.eqb k k') eqn:E.
  - apply String.eqb_eq in E. subst. apply dict_get_set_eq.
  - apply String.eqb_neq in E. by apply dict_get_set_ne.
Qed.

Lemma forallb_keys_ext (p : string -> bool) (d d' : dict pyval) :
  (forall k, dict_get k d' = dict_get k d) ->
  forallb p (dict_keys d') = forallb p (dict_keys d).
Proof.
  intros Hext.
  assert (forall k, In k (dict_keys d') <-> In k (dict_keys d)) as Hkeys.
  { intros k. pose proof (dict_get_None k d) as H1. pose proof (dict_get_None k d') as H2.
    rewrite Hext in H2. destruct (in_dec string_dec k (dict_keys d)) as [Hin|Hout];
      destruct (in_dec string_dec k (dict_keys d')) as [Hin'|Hout']; tauto. }
  destruct (forallb p (dict_keys d)) eqn:E.
  - rewrite forallb_forall in *. intros k Hk. apply E. by apply Hkeys.
  - destruct (forallb p (dict_keys d')) eqn:E'; [|done].
    rewrite <- E. symmetry. rewrite forallb_forall in *.
    intros k Hk. apply E'. by apply Hkeys.
Qed.

Lemma AgentInfo_init_ext (d d' : dict pyval) :
  (forall k, dict_get k d' = dict_get k d) -> AgentInfo_init d' = AgentInfo_init d.
Proof.
  intros Hext. unfold AgentInfo_init, kwarg.
  by rewrite (forallb_keys_ext _ _ _ Hext), !Hext.
Qed.

Lemma convert_ext (d d' : dict pyval) :
  (forall k, dict_get k d' = dict_get k d) ->
  Orchestrator.convert (VDict d') = Orchestrator.convert (VDict d).
Proof.
  intros Hext. unfold Orchestrator.convert. rewrite Hext.
  destruct (dict_get "last_update" d) as [[| | | |text| | |]|]; cbn [rbind];
    try by rewrite (AgentInfo_init_ext _ _ Hext).
  destruct (fromisoformat text) as [stamp|]; cbn [rbind]; [|done].
  rewrite (AgentInfo_init_ext (dict_set "last_update" (VDatetime stamp) d)
             (dict_set "last_update" (VDatetime stamp) d')); [done|].
  intros k. by rewrite !dict_get_set, Hext.
Qed.

Lemma dict_get_Permutation (d d' : dict pyval) k :
  NoDup (dict_keys d) -> Permutation d d' -> dict_get k d' = dict_get k d.
Proof.
  intros Hnd Hperm.
  assert (NoDup (dict_keys d')) as Hnd'.
  { unfold dict_keys. by rewrite <- Hperm. }
  destruct (dict_get k d) as [v|] eqn:E.
  - apply In_dict_get; [done|]. apply dict_get_In in E.
    by apply (Permutation_in _ Hperm).
  - apply dict_get_None. apply dict_get_None in E. intros Hin. apply E.
    unfold dict_keys in *. apply list_elem_of_In. rewrite Hperm.
    by apply list_elem_of_In.
Qed.

End EdgeFacts.

(** X24.  A compliance that is NaN (which [json.loads] accepts) is below
    neither threshold: its cell is the formatted text without any colour, as
    for a compliance of 0.95 and more, in both files. *)
Theorem compliance_cell_of_nan `{Runtime} (a : AgentInfo) (x : float) (text : string) :
  package_compliance a = VFloat x ->
  PrimFloat.eqb x x = false ->
  format_spec ".1%" (VFloat x) = Ok text ->
  Cli.compliance_text (Agent a) = Ok text
  /\ SubctlPy.compliance_text (Agent a) = Ok text.
Proof.
  intros Hpc Hnan Htext.
  unfold SubctlPy.compliance_text, Cli.compliance_text, attr, rbind, py_lt_float.
  by rewrite Hpc, Htext, !(nan_not_below x _ Hnan).
Qed.

(** X25.  The order of the fields inside an entry of the blob plays no part:
    two entries with the same fields in different orders convert to the same
    record, or fail with the same exception. *)
Theorem convert_ignores_field_order `{Runtime} (fields fields' : dict pyval) :
  nodupb (dict_keys fields) = true ->
  Permutation fields fields' ->
  Orchestrator.convert (VDict fields') = Orchestrator.convert (VDict fields)
  /\ SubctlPy.convert (VDict fields') = SubctlPy.convert (VDict fields).
Proof.
  intros Hnd%nodupb_NoDup Hperm.
  assert (Orchestrator.convert (VDict fields') = Orchestrator.convert (VDict fields))
    as Hconv; [|by split].
  apply convert_ext. intros k. by apply dict_get_Permutation.
Qed.

(** X26.  A blob that is JSON but no object (a list, a string, a number) is a
    failed read like any other: [orchestrator.py] returns the empty mapping
    and prints its diagnostic for the [AttributeError], [subctl.py] returns
    its cache and prints nothing. *)
Theorem non_object_blob_reads_empty `{Runtime}
    (self : SubctlPy.SubCtlOrchestrator) (w : world) (text : string) (w1 : world)
    (v : pyval) :
  redis_get "subctl:agents" w = (Ok (Some text), w1) ->
  str_truthy text = true ->
  json_loads text = Ok v ->
  is_dict v = false ->
  Orchestrator.get_all_agents w
  = (Ok [], with_console (console w ++ [Orchestrator.read_error AttributeError]) w1)
  /\ SubctlPy.get_all_agents self w = (Ok (SubctlPy.agents self), w1).
Proof.
  intros Hget Htext Hloads Hv.
  assert (Orchestrator.read_agents w = (Raise AttributeError, w1)) as Hread.
  { apply read_agents_decode_fails with text; [done..|].
    unfold decode. rewrite Hloads. by destruct v. }
  rewrite subctl_py_get_all_agents_eq, get_all_agents_eq, Hread.
  apply redis_get_frame in Hget as (_ & Hc & _). by rewrite Hc.
Qed.

Section EdgeScenes.
#[local] Existing Instance Sample.runtime.

Lemma compliance_cell_of_nan_witness :
  Cli.compliance_text (Agent Scenes.unrated) = Ok "nan%"
  /\ SubctlPy.compliance_text (Agent Scenes.unrated) = Ok "nan%".
Proof.
  apply (compliance_cell_of_nan Scenes.unrated PrimFloat.nan "nan%").
  - reflexivity.
  - reflexivity.
  - vm_compute. reflexivity.
Defined.

Lemma convert_ignores_field_order_witness :
  Orchestrator.convert (VDict Scenes.shuffled_fields)
  = Orchestrator.convert
      (VDict (Demo.entry_fields "alpha" "2024-01-01T11:55:00" (VInt 1200)))
  /\ SubctlPy.convert (VDict Scenes.shuffled_fields)
     = SubctlPy.convert
         (VDict (Demo.entry_fields "alpha" "2024-01-01T11:55:00" (VInt 1200))).
Proof.
  apply (convert_ignores_field_order
           (Demo.entry_fields "alpha" "2024-01-01T11:55:00" (VInt 1200))
           Scenes.shuffled_fields).
  - reflexivity.
  - apply Permutation_rev.
Defined.

Example shuffled_fields_convert :
  Orchestrator.convert (VDict Scenes.shuffled_fields)
  = Ok (Agent (Demo.agent_record "alpha" (Demo.at_time 11 55) (VInt 1200))).
Proof. vm_compute. reflexivity. Qed.

Lemma non_object_blob_reads_empty_witness :
  Orchestrator.get_all_agents (Demo.world_with Scenes.list_text [])
  = (Ok [], with_console ([] ++ [Orchestrator.read_error AttributeError])
              (Demo.world_with Scenes.list_text []))
  /\ SubctlPy.get_all_agents SubctlPy.init (Demo.world_with Scenes.list_text [])
     = (Ok [], Demo.world_with Scenes.list_text []).
Proof.
  apply (non_object_blob_reads_empty SubctlPy.init (Demo.world_with Scenes.list_text [])
           Scenes.list_text (Demo.world_with Scenes.list_text [])
           (VList [VStr "alpha"; VStr "beta"])).
  - vm_compute. reflexivity.
  - vm_compute. reflexivity.
  - vm_compute. reflexivity.
  - reflexivity.
Defined.

End EdgeScenes.
